(** * Expense Tracker: a shallow embedding of [expense-tracker.py]

    The development follows the three parts of the program:
    - [DataStorage]: the SQLite table [expenses] and the four statements the
      class runs against it;
    - [create_pie_chart]: the pandas group-by-and-sum and the matplotlib pie;
    - [ExpenseTrackerApp]: the Tk controller, as a state record and one
      function per callback.

    Numbers.  Python floats and SQLite REAL values are IEEE doubles.  Here a
    finite double is the rational it denotes and arithmetic on finite values
    is exact; the two infinities and NaN are kept as separate values because
    the control flow of the program depends on them.  Rounding of doubles
    (and the single-precision conversion matplotlib applies to wedge sizes)
    is outside the model. *)

From Stdlib Require Import ZArith QArith Qcanon Bool List Lia.
From Stdlib Require Import Ascii String DecimalString.
From Stdlib Require Import Permutation Sorted.
Import ListNotations.

Local Open Scope Z_scope.

(** ** Python values *)

(** A Python [float]. *)
Inductive pyfloat : Type :=
| PyFin (q : Qc)
| PyInf (negative : bool)
| PyNaN.

(** The exceptions that the modelled statements can raise. *)
Inductive exn : Type :=
| ValueError
| IntegrityError      (* sqlite3: a NOT NULL constraint failed *)
| OperationalError.   (* sqlite3: database or disk is full *)

Inductive outcome (A : Type) : Type :=
| Ok (a : A)
| Raise (e : exn).
Arguments Ok {A} a.
Arguments Raise {A} e.

Definition qc (n : Z) (d : positive) : Qc := Q2Qc (n # d).

Definition is_nan (x : pyfloat) : bool :=
  match x with PyNaN => true | _ => false end.

(** [x <= 0]; every comparison with NaN is false. *)
Definition py_le0 (x : pyfloat) : bool :=
  match x with
  | PyFin q => match (q ?= 0)%Qc with Gt => false | _ => true end
  | PyInf negative => negative
  | PyNaN => false
  end.

(** [x < 0]. *)
Definition py_lt0 (x : pyfloat) : bool :=
  match x with
  | PyFin q => match (q ?= 0)%Qc with Lt => true | _ => false end
  | PyInf negative => negative
  | PyNaN => false
  end.

Definition py_add (x y : pyfloat) : pyfloat :=
  match x, y with
  | PyNaN, _ | _, PyNaN => PyNaN
  | PyFin a, PyFin b => PyFin (a + b)%Qc
  | PyInf s, PyFin _ | PyFin _, PyInf s => PyInf s
  | PyInf s, PyInf t => if Bool.eqb s t then PyInf s else PyNaN
  end.

Definition qc_negative (q : Qc) : bool :=
  match (q ?= 0)%Qc with Lt => true | _ => false end.

Definition qc_is_zero (q : Qc) : bool :=
  match (q ?= 0)%Qc with Eq => true | _ => false end.

Definition py_mul (x y : pyfloat) : pyfloat :=
  match x, y with
  | PyNaN, _ | _, PyNaN => PyNaN
  | PyFin a, PyFin b => PyFin (a * b)%Qc
  | PyInf s, PyFin q | PyFin q, PyInf s =>
      if qc_is_zero q then PyNaN else PyInf (xorb s (qc_negative q))
  | PyInf s, PyInf t => PyInf (xorb s t)
  end.

(** Division as numpy performs it: dividing by zero does not raise. *)
Definition py_div (x y : pyfloat) : pyfloat :=
  match x, y with
  | PyNaN, _ | _, PyNaN => PyNaN
  | PyFin a, PyFin b =>
      if qc_is_zero b then
        (if qc_is_zero a then PyNaN else PyInf (qc_negative a))
      else PyFin (a / b)%Qc
  | PyFin _, PyInf _ => PyFin 0%Qc
  | PyInf s, PyFin q => PyInf (xorb s (qc_negative q))
  | PyInf _, PyInf _ => PyNaN
  end.

(** ** Text *)

Definition dec (z : Z) : string :=
  NilZero.string_of_uint (N.to_uint (Z.to_N z)).

Definition digit (z : Z) : string := dec (z mod 10).

(** Nearest integer to [n / d] for [0 <= n], ties to the even neighbour. *)
Definition round_half_even (n : Z) (d : positive) : Z :=
  let fl := n / Zpos d in
  let r := n mod Zpos d in
  match (2 * r ?= Zpos d) with
  | Lt => fl
  | Gt => fl + 1
  | Eq => if Z.even fl then fl else fl + 1
  end.

(** The conversion ["%1.1f"]. *)
Definition format_1f (x : pyfloat) : string :=
  match x with
  | PyFin q =>
      let t := round_half_even (Z.abs (Qnum q) * 10) (Qden q) in
      let sign := if Qnum q <? 0 then "-"%string else ""%string in
      let units := dec (t / 10) in
      (sign ++ units ++ "." ++ digit t)%string
  | PyInf negative => if negative then "-inf"%string else "inf"%string
  | PyNaN => "nan"%string
  end.

(** [autopct='%1.1f%%'] applied to a percentage. *)
Definition autopct (pct : pyfloat) : string := (format_1f pct ++ "%")%string.

(** ** The clock *)

(** A [datetime.datetime] value, to the second. *)
Record datetime : Type := {
  year : Z; month : Z; day : Z; hour : Z; minute : Z; second : Z
}.

Definition pad2 (z : Z) : string :=
  let tens := digit (z / 10) in (tens ++ digit z)%string.

Definition pad4 (z : Z) : string :=
  let thousands := digit (z / 1000) in
  let hundreds := digit (z / 100) in
  let tens := digit (z / 10) in
  (thousands ++ hundreds ++ tens ++ digit z)%string.

(** [strftime("%d-%m-%Y %H:%M:%S")]; a [datetime] has [year <= 9999]. *)
Definition strftime (t : datetime) : string :=
  (pad2 (day t) ++ "-" ++ pad2 (month t) ++ "-" ++ pad4 (year t) ++ " " ++
   pad2 (hour t) ++ ":" ++ pad2 (minute t) ++ ":" ++ pad2 (second t))%string.

Definition lex (c : comparison) (k : comparison) : comparison :=
  match c with Eq => k | _ => c end.

(** Chronological comparison of two instants. *)
Definition chrono_compare (a b : datetime) : comparison :=
  lex (year a ?= year b) (lex (month a ?= month b) (lex (day a ?= day b)
  (lex (hour a ?= hour b) (lex (minute a ?= minute b) (second a ?= second b))))).

Definition earlier (a b : datetime) : Prop := chrono_compare a b = Lt.

(** ** Record store *)

Module DataStorage.

(** One row of [expenses]. *)
Record row : Type := {
  id : Z;
  amount : pyfloat;
  category : string;
  date : string
}.

(** The table [expenses]: its rows in rowid order and the counter that
    [AUTOINCREMENT] keeps for it in [sqlite_sequence]. *)
Record table : Type := {
  rows : list row;
  seq : Z
}.

Definition empty_table : table := {| rows := []; seq := 0 |}.

(** [CREATE TABLE IF NOT EXISTS expenses]: [None] is a database file
    without the table. *)
Definition _initialize_db (file : option table) : table :=
  match file with
  | Some db => db
  | None => empty_table
  end.

Definition MAX_ROWID : Z := 9223372036854775807.

Definition max_rowid (l : list row) : Z :=
  fold_right (fun r m => Z.max (id r) m) 0 l.

(** The largest rowid the table has ever held. *)
Definition last_rowid (t : table) : Z := Z.max (seq t) (max_rowid (rows t)).

(** A row stored under the next automatic rowid. *)
Definition insert_row (t : table) (a : pyfloat) (c d : string) : table :=
  let k := last_rowid t + 1 in
  {| rows := rows t ++ [{| id := k; amount := a; category := c; date := d |}];
     seq := k |}.

(** [INSERT INTO expenses (amount, category, date) VALUES (?, ?, ?)].
    The rowid is chosen first; it cannot go past [MAX_ROWID].  A NaN is
    bound as NULL, which [amount REAL NOT NULL] refuses.  Nothing else is
    checked. *)
Definition add_expense (a : pyfloat) (c d : string) (db : table)
  : outcome table :=
  if MAX_ROWID <=? last_rowid db then Raise OperationalError
  else if is_nan a then Raise IntegrityError
  else Ok (insert_row db a c d).

(** [DELETE FROM expenses WHERE id = ?]. *)
Definition without (expense_id : Z) (l : list row) : list row :=
  filter (fun r => negb (id r =? expense_id)) l.

(** [INSERT INTO temp_expenses (amount, category, date) SELECT amount,
    category, date FROM expenses]: the rows [l], read in rowid order, are
    stored in [t] one by one, each under the next automatic rowid.  The
    rows copied already satisfy the column constraints and there are no
    more of them than rowids. *)
Definition rebuild (l : list row) (t : table) : table :=
  fold_left (fun t r => insert_row t (amount r) (category r) (date r)) l t.

(** The delete, then the rebuild: what is left of [expenses] is copied,
    without the ids, into the fresh table [temp_expenses], which then takes
    the place of [expenses]. *)
Definition delete_expense (expense_id : Z) (db : table) : table :=
  let expenses := without expense_id (rows db) in
  let temp_expenses := rebuild expenses empty_table in
  temp_expenses.

(** Where [ORDER BY date DESC] puts one more row: dates are TEXT and are
    compared byte by byte.  SQL leaves the order of rows with the same
    date open; here they stay in rowid order. *)
Fixpoint insert_desc (x : row) (l : list row) : list row :=
  match l with
  | [] => [x]
  | y :: l' =>
      if (date y <=? date x)%string then x :: l else y :: insert_desc x l'
  end.

Definition order_by_date_desc (l : list row) : list row :=
  fold_right insert_desc [] l.

(** [SELECT * FROM expenses ORDER BY date DESC]. *)
Definition get_all_expenses (db : table) : list row :=
  order_by_date_desc (rows db).

Definition ids (l : list row) : list Z := map id l.

(** The list [k, k+1, k+2, ...]. *)
Fixpoint dense_from (k : Z) (l : list Z) : bool :=
  match l with
  | [] => true
  | x :: l' => (x =? k) && dense_from (k + 1) l'
  end.

(** The state the operations keep the table in: ids are [1..n] in storage
    order, the counter is [n], and no amount is NULL. *)
Definition db_ok (db : table) : bool :=
  dense_from 1 (ids (rows db))
  && (seq db =? Z.of_nat (List.length (rows db)))
  && forallb (fun r => negb (is_nan (amount r))) (rows db).

(** What a row holds apart from its id. *)
Definition fields (r : row) : pyfloat * string * string :=
  (amount r, category r, date r).

End DataStorage.

(** ** Aggregation and chart *)

Record wedge : Type := {
  label : string;      (* the category *)
  frac : pyfloat;      (* share of the full circle *)
  pct_text : string    (* the text [autopct] writes on the wedge *)
}.

Record figure : Type := {
  wedges : list wedge;
  title : string;
  startangle : Z
}.

(** What the user gets to see. *)
Inductive effect : Type :=
| showinfo (title message : string)
| showwarning (title message : string)
| showerror (title message : string)
| plt_show (fig : figure).

(** pandas leaves NaN out of a sum. *)
Definition skipna (a : pyfloat) : pyfloat :=
  if is_nan a then PyFin 0%Qc else a.

(** One more amount for category [c], in a series kept sorted by key. *)
Fixpoint add_to_group (c : string) (a : pyfloat) (g : list (string * pyfloat))
  : list (string * pyfloat) :=
  match g with
  | [] => [(c, a)]
  | (c', s) :: g' =>
      match (c ?= c')%string with
      | Eq => (c', py_add s a) :: g'
      | Lt => (c, a) :: g
      | Gt => (c', s) :: add_to_group c a g'
      end
  end.

(** [df.groupby('category')['amount'].sum()]: one entry per category, keys
    in ascending order, amounts added in row order. *)
Definition group_step (g : list (string * pyfloat)) (r : DataStorage.row)
  : list (string * pyfloat) :=
  add_to_group (DataStorage.category r) (skipna (DataStorage.amount r)) g.

Definition groupby_category_sum (expenses : list DataStorage.row)
  : list (string * pyfloat) :=
  fold_left group_step expenses [].

(** [ax.pie(x, labels=..., autopct='%1.1f%%')] as matplotlib 3.5 and later
    perform it: negative sizes are refused, the others are divided by
    their sum. *)
Definition pie (category_totals : list (string * pyfloat))
  : outcome (list wedge) :=
  let x := map snd category_totals in
  if existsb py_lt0 x then Raise ValueError
  else
    let sx := fold_left py_add x (PyFin 0%Qc) in
    Ok (map (fun cs =>
               let f := py_div (snd cs) sx in
               {| label := fst cs;
                  frac := f;
                  pct_text := autopct (py_mul (PyFin (qc 100 1)) f) |})
            category_totals).

Definition create_pie_chart (expenses : list DataStorage.row)
  : outcome (list effect) :=
  match expenses with
  | [] => Ok [showinfo "Info" "No expenses to show."]
  | _ :: _ =>
      let category_totals := groupby_category_sum expenses in
      match pie category_totals with
      | Raise e => Raise e
      | Ok w =>
          Ok [plt_show {| wedges := w;
                          title := "Expense Breakdown by Category";
                          startangle := 90 |}]
      end
  end.

(** ** Application controller *)

Module ExpenseTrackerApp.

(** The controller's own state together with the widgets it reads and
    writes and the database it owns. *)
Record app : Type := {
  storage : DataStorage.table;
  selected_expense_id : option Z;
  is_dark_mode : bool;
  amount_entry : string;
  category_combobox : string;
  expense_table : list DataStorage.row
}.

(** How a callback ends: the state it leaves, the dialogs it showed, and
    the exception that escaped it, if any. *)
Record result : Type := {
  after : app;
  shown : list effect;
  uncaught : option exn
}.

Definition returns (a : app) (fx : list effect) : result :=
  {| after := a; shown := fx; uncaught := None |}.

Definition raises (a : app) (e : exn) : result :=
  {| after := a; shown := []; uncaught := Some e |}.

Definition set_storage (db : DataStorage.table) (a : app) : app :=
  {| storage := db;
     selected_expense_id := selected_expense_id a;
     is_dark_mode := is_dark_mode a;
     amount_entry := amount_entry a;
     category_combobox := category_combobox a;
     expense_table := expense_table a |}.

(** Python's [not s] for a string. *)
Definition not_str (s : string) : bool :=
  match s with EmptyString => true | String _ _ => false end.

Definition load_expenses (a : app) : app :=
  {| storage := storage a;
     selected_expense_id := selected_expense_id a;
     is_dark_mode := is_dark_mode a;
     amount_entry := amount_entry a;
     category_combobox := category_combobox a;
     expense_table := DataStorage.get_all_expenses (storage a) |}.

Definition clear_inputs (a : app) : app :=
  {| storage := storage a;
     selected_expense_id := None;
     is_dark_mode := is_dark_mode a;
     amount_entry := "";
     category_combobox := "";
     expense_table := expense_table a |}.

(** [file] is what [expenses.db] holds when the program starts. *)
Definition __init__ (file : option DataStorage.table) : app :=
  load_expenses
    {| storage := DataStorage._initialize_db file;
       selected_expense_id := None;
       is_dark_mode := false;
       amount_entry := "";
       category_combobox := "";
       expense_table := [] |}.

(** The user edits the two input widgets. *)
Definition type_amount (text : string) (a : app) : app :=
  {| storage := storage a;
     selected_expense_id := selected_expense_id a;
     is_dark_mode := is_dark_mode a;
     amount_entry := text;
     category_combobox := category_combobox a;
     expense_table := expense_table a |}.

Definition type_category (text : string) (a : app) : app :=
  {| storage := storage a;
     selected_expense_id := selected_expense_id a;
     is_dark_mode := is_dark_mode a;
     amount_entry := amount_entry a;
     category_combobox := text;
     expense_table := expense_table a |}.

Definition toggle_dark_mode (a : app) : app :=
  {| storage := storage a;
     selected_expense_id := selected_expense_id a;
     is_dark_mode := negb (is_dark_mode a);
     amount_entry := amount_entry a;
     category_combobox := category_combobox a;
     expense_table := expense_table a |}.

(** [if not self.selected_expense_id] holds for [None] and for [0]. *)
Definition delete_expense (a : app) : result :=
  let nothing_selected :=
    returns a [showwarning "Selection Error"
                           "Please select an expense to delete."] in
  match selected_expense_id a with
  | None => nothing_selected
  | Some k =>
      if k =? 0 then nothing_selected
      else
        let a1 := set_storage (DataStorage.delete_expense k (storage a)) a in
        let a2 := load_expenses a1 in
        let a3 := clear_inputs a2 in
        returns a3 [showinfo "Success" "Expense deleted successfully!"]
  end.

Definition show_pie_chart (a : app) : result :=
  match create_pie_chart (DataStorage.get_all_expenses (storage a)) with
  | Ok fx => returns a fx
  | Raise e => raises a e
  end.

Section Callbacks.

(** Python's [float] on a string: [None] stands for [ValueError]. *)
Variable float : string -> option pyfloat.

(** The text Tk puts into the entry for an amount read from a row. *)
Variable tk_text : pyfloat -> string.

Definition input_error (a : app) (message : string) : result :=
  returns a [showerror "Input Error" message].

(** [now] is what [datetime.datetime.now()] returns during the call. *)
Definition add_expense (now : datetime) (a : app) : result :=
  let amount := amount_entry a in
  let category := category_combobox a in
  let date := strftime now in
  if not_str amount || not_str category then
    input_error a "All fields are required."
  else
    match float amount with
    | None => input_error a "Amount must be a positive number."
    | Some amount =>
        if py_le0 amount then
          input_error a "Amount must be a positive number."
        else
          match DataStorage.add_expense amount category date (storage a)
          with
          | Raise e => raises a e
          | Ok db =>
              let a1 := set_storage db a in
              let a2 := load_expenses a1 in
              let a3 := clear_inputs a2 in
              returns a3 [showinfo "Success" "Expense added successfully!"]
          end
    end.

(** [<<TreeviewSelect>>]: [selected] lists the positions of the selected
    rows of the table widget; only displayed rows can be selected. *)
Definition on_row_select (selected : list nat) (a : app) : app :=
  match selected with
  | [] => a
  | i :: _ =>
      match nth_error (expense_table a) i with
      | None => a
      | Some values =>
          {| storage := storage a;
             selected_expense_id := Some (DataStorage.id values);
             is_dark_mode := is_dark_mode a;
             amount_entry := tk_text (DataStorage.amount values);
             category_combobox := DataStorage.category values;
             expense_table := expense_table a |}
      end
  end.

(** The states the running program passes through. *)
Inductive reachable : app -> Prop :=
| r_start : reachable (__init__ None)
| r_type_amount text a :
    reachable a -> reachable (type_amount text a)
| r_type_category text a :
    reachable a -> reachable (type_category text a)
| r_select sel a :
    reachable a -> reachable (on_row_select sel a)
| r_add now a :
    reachable a -> reachable (after (add_expense now a))
| r_delete a :
    reachable a -> reachable (after (delete_expense a))
| r_chart a :
    reachable a -> reachable (after (show_pie_chart a))
| r_toggle a :
    reachable a -> reachable (toggle_dark_mode a)
| r_restart a :
    reachable a -> reachable (__init__ (Some (storage a))).

End Callbacks.

(** What holds of the controller between callbacks: the database is in
    order, the table widget shows the current query result, and a
    selection names a displayed row. *)
Definition app_ok (a : app) : Prop :=
  DataStorage.db_ok (storage a) = true
  /\ expense_table a = DataStorage.get_all_expenses (storage a)
  /\ (forall k, selected_expense_id a = Some k ->
                In k (DataStorage.ids (expense_table a))).

End ExpenseTrackerApp.

(** ** Reading plain decimal texts

    One reading of [float] for the texts that occur in the examples below:
    an optional sign followed by [nan], [inf], or digits with at most one
    decimal point.  Python's [float] reads these texts the same way (and
    reads more: exponents, surrounding white space, other spellings). *)

Definition is_digit (c : ascii) : bool :=
  let n := N_of_ascii c in ((48 <=? n) && (n <=? 57))%N.

Definition digit_value (c : ascii) : Z := Z.of_N (N_of_ascii c) - 48.

Fixpoint read_decimal (s : string) (num : Z) (den : positive)
         (point any : bool) : option Qc :=
  match s with
  | EmptyString => if any then Some (Q2Qc (num # den)) else None
  | String c s' =>
      if is_digit c then
        read_decimal s' (10 * num + digit_value c)
                     (if point then 10 * den else den)%positive point true
      else if Ascii.eqb c "." && negb point then
        read_decimal s' num den true any
      else None
  end.

Definition read_unsigned (negative : bool) (s : string) : option pyfloat :=
  if String.eqb s "nan" then Some PyNaN
  else if String.eqb s "inf" then Some (PyInf negative)
  else
    match read_decimal s 0 1 false false with
    | Some q => Some (PyFin (if negative then - q else q)%Qc)
    | None => None
    end.

Definition float_plain (s : string) : option pyfloat :=
  match s with
  | String "-" s' => read_unsigned true s'
  | String "+" s' => read_unsigned false s'
  | _ => read_unsigned false s
  end.

(** ** Notions used to state the properties *)






(** The entry of a series for key [c]. *)
Fixpoint assoc (c : string) (g : list (string * pyfloat)) : option pyfloat :=
  match g with
  | [] => None
  | (c', s) :: g' => if String.eqb c c' then Some s else assoc c g'
  end.

(** A series with its keys in strictly ascending order. *)
Definition keys_ascending (g : list (string * pyfloat)) : Prop :=
  StronglySorted (fun a b => (a ?= b)%string = Lt) (map fst g).

(** Ids [1..n] in storage order, counter at [n]. *)
Definition numbered (t : DataStorage.table) : Prop :=
  DataStorage.dense_from 1 (DataStorage.ids (DataStorage.rows t)) = true
  /\ DataStorage.seq t = Z.of_nat (List.length (DataStorage.rows t)).

(** Rows sorted by date, latest text first. *)
Definition date_desc (l : list DataStorage.row) : Prop :=
  StronglySorted
    (fun x y => (DataStorage.date y <=? DataStorage.date x)%string = true) l.

(** ** Sample data *)

Definition jan15 : datetime :=
  {| year := 2024; month := 1; day := 15; hour := 10; minute := 0; second := 0 |}.

Definition feb01 : datetime :=
  {| year := 2024; month := 2; day := 1; hour := 9; minute := 30; second := 0 |}.

Definition mar09 : datetime :=
  {| year := 2024; month := 3; day := 9; hour := 18; minute := 45; second := 7 |}.

Definition expense (k amount : Z) (c : string) (t : datetime)
  : DataStorage.row :=
  {| DataStorage.id := k;
     DataStorage.amount := PyFin (qc amount 1);
     DataStorage.category := c;
     DataStorage.date := strftime t |}.

(** Three expenses entered in January, February and March. *)
Definition three_expenses : DataStorage.table :=
  {| DataStorage.rows :=
       [expense 1 10 "Food" jan15;
        expense 2 20 "Food" feb01;
        expense 3 30 "Transportation" mar09];
     DataStorage.seq := 3 |}.

(** The program restarted on [three_expenses] with the first displayed row
    selected, and then with a new expense typed into the form. *)
Definition row_selected : ExpenseTrackerApp.app :=
  ExpenseTrackerApp.on_row_select
    format_1f [0%nat] (ExpenseTrackerApp.__init__ (Some three_expenses)).

Definition form_filled : ExpenseTrackerApp.app :=
  ExpenseTrackerApp.type_category
    "Other" (ExpenseTrackerApp.type_amount "12.5" row_selected).

(** A fresh program with [nan] typed as the amount. *)
Definition nan_typed : ExpenseTrackerApp.app :=
  ExpenseTrackerApp.type_category
    "Food" (ExpenseTrackerApp.type_amount "nan" (ExpenseTrackerApp.__init__ None)).

(** ** Further notions *)

(** A [datetime] as [now()] returns it (four-digit years). *)
Definition valid_datetime (t : datetime) : bool :=
  (1000 <=? year t) && (year t <=? 9999)
  && (1 <=? month t) && (month t <=? 12)
  && (1 <=? day t) && (day t <=? 31)
  && (0 <=? hour t) && (hour t <=? 23)
  && (0 <=? minute t) && (minute t <=? 59)
  && (0 <=? second t) && (second t <=? 59).

(** The character of the last decimal digit of [z]. *)
Definition digit_ascii (z : Z) : ascii :=
  ascii_of_N (48 + Z.to_N (z mod 10)).

(** Comparison by day, then month, then year, then time of day. *)
Definition day_first_compare (a b : datetime) : comparison :=
  lex (day a ?= day b) (lex (month a ?= month b) (lex (year a ?= year b)
  (lex (hour a ?= hour b) (lex (minute a ?= minute b) (second a ?= second b))))).

(** The rows of [l] carry the stamps [stamp] gives them, all of them in
    month [m] of year [y]. *)
Definition stamped_in_month (stamp : DataStorage.row -> datetime) (y m : Z)
           (l : list DataStorage.row) : bool :=
  forallb (fun r => valid_datetime (stamp r)
                    && String.eqb (DataStorage.date r) (strftime (stamp r))
                    && (year (stamp r) =? y) && (month (stamp r) =? m)) l.

(** Two expenses entered in the same month. *)
Definition jan03 : datetime :=
  {| year := 2024; month := 1; day := 3; hour := 8; minute := 15; second := 0 |}.

Definition january_expenses : DataStorage.table :=
  {| DataStorage.rows :=
       [expense 1 10 "Food" jan03; expense 2 20 "Food" jan15];
     DataStorage.seq := 2 |}.

Definition january_stamp (r : DataStorage.row) : datetime :=
  if DataStorage.id r =? 1 then jan03 else jan15.


(** What the controller lets into the store: an amount that passed the
    test [amount <= 0] and is not NaN, with a non-empty category. *)
Definition stored_ok (r : DataStorage.row) : bool :=
  negb (py_le0 (DataStorage.amount r))
  && negb (is_nan (DataStorage.amount r))
  && negb (ExpenseTrackerApp.not_str (DataStorage.category r)).

(** Two refunds entered at the level of the store. *)
Definition refunds : list DataStorage.row :=
  [expense 1 (-10) "Food" jan15; expense 2 (-20) "Other" feb01].

(** A fresh program in which one expense has been submitted, and then
    its row selected. *)
Definition one_added : ExpenseTrackerApp.app :=
  ExpenseTrackerApp.after
    (ExpenseTrackerApp.add_expense
       float_plain jan15
       (ExpenseTrackerApp.type_category
          "Food"
          (ExpenseTrackerApp.type_amount
             "10" (ExpenseTrackerApp.__init__ None)))).

Definition one_selected : ExpenseTrackerApp.app :=
  ExpenseTrackerApp.on_row_select format_1f [0%nat] one_added.

(** * Properties *)

(** ** Rounding to one decimal *)

(** [round_half_even n d] is an integer nearest to [n / d]. *)
Lemma round_half_even_nearest (n : Z) (d : positive) :
  0 <= n ->
  Z.abs (2 * n - 2 * Zpos d * round_half_even n d) <= Zpos d.
Proof.
  intros Hn. unfold round_half_even.
  pose proof (Z.div_mod n (Zpos d) ltac:(lia)) as Hdm.
  pose proof (Z.mod_pos_bound n (Zpos d) ltac:(lia)) as Hr.
  set (q := n / Zpos d) in *. set (r := n mod Zpos d) in *.
  destruct (Z.compare_spec (2 * r) (Zpos d)) as [E|E|E];
    [destruct (Z.even q)|..]; nia.
Qed.

(** ** Byte order on texts *)

Lemma ascii_compare_refl (a : ascii) : Ascii.compare a a = Eq.
Proof. unfold Ascii.compare. apply N.compare_refl. Qed.

Lemma ascii_compare_lt_trans (a b c : ascii) :
  Ascii.compare a b = Lt -> Ascii.compare b c = Lt -> Ascii.compare a c = Lt.
Proof.
  unfold Ascii.compare. rewrite !N.compare_lt_iff. apply N.lt_trans.
Qed.

Lemma string_compare_refl (s : string) : (s ?= s)%string = Eq.
Proof.
  induction s as [|a s IH]; simpl; [reflexivity|].
  now rewrite ascii_compare_refl.
Qed.

Lemma string_compare_eq (s t : string) : (s ?= t)%string = Eq <-> s = t.
Proof.
  split.
  - apply String.compare_eq_iff.
  - intros ->. apply string_compare_refl.
Qed.

Lemma string_compare_lt_trans (s t u : string) :
  (s ?= t)%string = Lt -> (t ?= u)%string = Lt -> (s ?= u)%string = Lt.
Proof.
  revert t u. induction s as [|a s IH]; intros [|b t] [|c u]; simpl;
    try discriminate; auto.
  destruct (Ascii.compare a b) eqn:Eab; try discriminate;
    destruct (Ascii.compare b c) eqn:Ebc; try discriminate; intros Hst Htu.
  - apply Ascii.compare_eq_iff in Eab, Ebc. subst.
    rewrite ascii_compare_refl. eauto.
  - apply Ascii.compare_eq_iff in Eab. subst. now rewrite Ebc.
  - apply Ascii.compare_eq_iff in Ebc. subst. now rewrite Eab.
  - now rewrite (ascii_compare_lt_trans _ _ _ Eab Ebc).
Qed.

Lemma string_compare_gt_lt (s t : string) :
  (s ?= t)%string = Gt <-> (t ?= s)%string = Lt.
Proof.
  rewrite (String.compare_antisym t s).
  destruct (s ?= t)%string; simpl; split; congruence.
Qed.

Lemma string_leb_refl (s : string) : (s <=? s)%string = true.
Proof. unfold String.leb. now rewrite string_compare_refl. Qed.

Lemma string_leb_trans (s t u : string) :
  (s <=? t)%string = true -> (t <=? u)%string = true ->
  (s <=? u)%string = true.
Proof.
  unfold String.leb.
  destruct (s ?= t)%string eqn:Est; try discriminate;
    destruct (t ?= u)%string eqn:Etu; try discriminate; intros _ _.
  - apply string_compare_eq in Est, Etu. subst.
    now rewrite string_compare_refl.
  - apply string_compare_eq in Est. subst. now rewrite Etu.
  - apply string_compare_eq in Etu. subst. now rewrite Est.
  - now rewrite (string_compare_lt_trans _ _ _ Est Etu).
Qed.

Lemma string_leb_false (s t : string) :
  (s <=? t)%string = false -> (t <=? s)%string = true.
Proof.
  intros H. destruct (String.leb_total s t) as [E|E]; congruence.
Qed.

(** ** The record store: numbering *)

Section Numbering.
Import DataStorage.

Lemma dense_from_app (k : Z) (l1 l2 : list Z) :
  dense_from k (l1 ++ l2)
  = dense_from k l1 && dense_from (k + Z.of_nat (List.length l1)) l2.
Proof.
  revert k. induction l1 as [|x l1 IH]; intros k.
  - simpl. now rewrite Z.add_0_r.
  - cbn [dense_from app List.length]. rewrite Nat2Z.inj_succ.
    rewrite IH, andb_assoc. do 2 f_equal. lia.
Qed.

Lemma dense_from_unique (k : Z) (l1 l2 : list Z) :
  dense_from k l1 = true -> dense_from k l2 = true ->
  List.length l1 = List.length l2 -> l1 = l2.
Proof.
  revert k l2. induction l1 as [|x l1 IH]; intros k [|y l2]; simpl;
    try discriminate; auto.
  rewrite !andb_true_iff, !Z.eqb_eq. intros [-> H1] [-> H2] Hlen.
  f_equal. apply (IH (k + 1)); auto.
Qed.

Lemma dense_from_bounds (k : Z) (l : list Z) :
  dense_from k l = true ->
  forall x, In x l -> k <= x < k + Z.of_nat (List.length l).
Proof.
  revert k. induction l as [|y l IH]; intros k; [simpl; tauto|].
  cbn [dense_from In List.length]. rewrite Nat2Z.inj_succ.
  rewrite andb_true_iff, Z.eqb_eq. intros [-> H] x [<-|Hx]; [lia|].
  specialize (IH _ H x Hx). lia.
Qed.

Lemma dense_from_NoDup (k : Z) (l : list Z) :
  dense_from k l = true -> NoDup l.
Proof.
  revert k. induction l as [|y l IH]; intros k; simpl; [constructor|].
  rewrite andb_true_iff, Z.eqb_eq. intros [-> H]. constructor; eauto.
  intros Hin. apply (dense_from_bounds _ _ H) in Hin. lia.
Qed.

Lemma max_rowid_bound (l : list row) (b : Z) :
  0 <= b -> (forall x, In x (ids l) -> x <= b) -> max_rowid l <= b.
Proof.
  intros Hb. induction l as [|r l IH]; simpl; intros H; [assumption|].
  apply Z.max_lub; auto.
Qed.

Lemma numbered_last_rowid (t : table) : numbered t -> last_rowid t = seq t.
Proof.
  intros [Hd Hs]. unfold last_rowid. apply Z.max_l.
  apply max_rowid_bound; [lia|].
  intros x Hx. apply (dense_from_bounds _ _ Hd) in Hx.
  unfold ids in Hx. rewrite length_map in Hx. lia.
Qed.

Lemma numbered_empty : numbered empty_table.
Proof. split; reflexivity. Qed.

Lemma numbered_insert_row (t : table) (a : pyfloat) (c d : string) :
  numbered t -> numbered (insert_row t a c d).
Proof.
  intros Hn. pose proof (numbered_last_rowid _ Hn) as Hl.
  destruct Hn as [Hd Hs]. unfold numbered, insert_row. simpl.
  rewrite Hl. unfold ids. rewrite map_app, dense_from_app, length_app.
  fold (ids (rows t)). rewrite Hd. unfold ids. rewrite length_map.
  cbn [map dense_from id List.length andb]. split.
  - rewrite andb_true_r. apply Z.eqb_eq. lia.
  - rewrite Nat2Z.inj_add. simpl. lia.
Qed.

Lemma rebuild_numbered (l : list row) (t : table) :
  numbered t -> numbered (rebuild l t).
Proof.
  revert t. induction l as [|r l IH]; intros t Hn; simpl; auto.
  apply IH. now apply numbered_insert_row.
Qed.

Lemma rebuild_fields (l : list row) (t : table) :
  map fields (rows (rebuild l t)) = map fields (rows t) ++ map fields l.
Proof.
  revert t. induction l as [|r l IH]; intros t; simpl.
  - now rewrite app_nil_r.
  - rewrite IH. simpl. rewrite map_app, <- app_assoc. reflexivity.
Qed.

Lemma row_ext (l1 l2 : list row) :
  map fields l1 = map fields l2 -> ids l1 = ids l2 -> l1 = l2.
Proof.
  revert l2. induction l1 as [|x l1 IH]; intros [|y l2]; simpl;
    try discriminate; auto.
  intros Hf Hi. injection Hf as Ha Hc Hd Hf. injection Hi as Hx Hi.
  f_equal; auto.
  destruct x, y; simpl in *; congruence.
Qed.

Lemma fields_length (l1 l2 : list row) :
  map fields l1 = map fields l2 -> List.length l1 = List.length l2.
Proof.
  intros H. rewrite <- (length_map fields l1), H. apply length_map.
Qed.

Lemma fields_not_nan (l1 l2 : list row) :
  map fields l1 = map fields l2 ->
  forallb (fun r => negb (is_nan (amount r))) l1
  = forallb (fun r => negb (is_nan (amount r))) l2.
Proof.
  revert l2. induction l1 as [|x l1 IH]; intros [|y l2]; simpl;
    try discriminate; auto.
  intros Hf. injection Hf as Ha Hc Hd Hf. rewrite Ha. f_equal. auto.
Qed.

Lemma db_ok_numbered (db : table) : db_ok db = true -> numbered db.
Proof.
  unfold db_ok. rewrite !andb_true_iff, Z.eqb_eq. intros [[Hd Hs] _].
  split; assumption.
Qed.

Lemma without_absent (k : Z) (l : list row) :
  ~ In k (ids l) -> without k l = l.
Proof.
  induction l as [|r l IH]; simpl; intros H; [reflexivity|].
  destruct (Z.eqb_spec (id r) k) as [E|E]; simpl.
  - exfalso. apply H. now left.
  - f_equal. apply IH. tauto.
Qed.

Lemma without_not_nan (k : Z) (l : list row) :
  forallb (fun r => negb (is_nan (amount r))) l = true ->
  forallb (fun r => negb (is_nan (amount r))) (without k l) = true.
Proof.
  rewrite !forallb_forall. intros H x Hx.
  apply filter_In in Hx. apply H, Hx.
Qed.

(** Taking out the one row with id [k] from rows with distinct ids. *)
Lemma without_split (k : Z) (l : list row) :
  NoDup (ids l) -> In k (ids l) ->
  exists before r after,
    l = before ++ r :: after /\ id r = k /\ without k l = before ++ after.
Proof.
  induction l as [|x l IH]; simpl; intros Hnd Hin; [tauto|].
  inversion Hnd as [|? ? Hx Hnd']; subst.
  destruct (Z.eqb_spec (id x) k) as [E|E]; simpl.
  - exists [], x, l. repeat split; auto.
    simpl. apply without_absent. now rewrite <- E.
  - destruct Hin as [Hin|Hin]; [contradiction|].
    destruct (IH Hnd' Hin) as (b & r & a & Hl & Hr & Hw).
    exists (x :: b), r, a. simpl. rewrite Hw, <- Hl. auto.
Qed.

Lemma delete_expense_numbered (k : Z) (db : table) :
  numbered (delete_expense k db).
Proof. apply rebuild_numbered, numbered_empty. Qed.

Lemma delete_expense_fields (k : Z) (db : table) :
  map fields (rows (delete_expense k db))
  = map fields (without k (rows db)).
Proof. unfold delete_expense. now rewrite rebuild_fields. Qed.

(** The operations keep the table in order. *)
Lemma delete_expense_db_ok (k : Z) (db : table) :
  db_ok db = true -> db_ok (delete_expense k db) = true.
Proof.
  intros Hok. destruct (delete_expense_numbered k db) as [Hd Hs].
  unfold db_ok. rewrite Hd, Hs, Z.eqb_refl. simpl.
  rewrite (fields_not_nan _ _ (delete_expense_fields k db)).
  apply without_not_nan.
  unfold db_ok in Hok. rewrite !andb_true_iff in Hok. apply Hok.
Qed.

Lemma add_expense_db_ok (a : pyfloat) (c d : string) (db db' : table) :
  db_ok db = true -> add_expense a c d db = Ok db' -> db_ok db' = true.
Proof.
  intros Hok. unfold add_expense.
  destruct (MAX_ROWID <=? last_rowid db); [discriminate|].
  destruct (is_nan a) eqn:Ea; [discriminate|].
  intros E. injection E as <-.
  destruct (numbered_insert_row db a c d (db_ok_numbered _ Hok)) as [Hd Hs].
  unfold db_ok. rewrite Hd, Hs, Z.eqb_refl. simpl.
  rewrite forallb_app. simpl. rewrite Ea. simpl. rewrite andb_true_r.
  unfold db_ok in Hok. rewrite !andb_true_iff in Hok. apply Hok.
Qed.

End Numbering.

(** ** The record store: [ORDER BY date DESC] *)

Section Ordering.
Import DataStorage.

Lemma insert_desc_perm (x : row) (l : list row) :
  Permutation (x :: l) (insert_desc x l).
Proof.
  induction l as [|y l IH]; simpl; [reflexivity|].
  destruct (date y <=? date x)%string; [reflexivity|].
  rewrite perm_swap. now constructor.
Qed.

Lemma order_by_date_desc_perm (l : list row) :
  Permutation l (order_by_date_desc l).
Proof.
  induction l as [|x l IH]; simpl; [constructor|].
  rewrite <- insert_desc_perm. now constructor.
Qed.

Lemma insert_desc_sorted (x : row) (l : list row) :
  date_desc l -> date_desc (insert_desc x l).
Proof.
  unfold date_desc.
  induction l as [|y l IH]; simpl; intros Hs.
  - repeat constructor.
  - inversion Hs as [|? ? Hl Hy]; subst.
    destruct (date y <=? date x)%string eqn:E.
    + constructor; [assumption|]. constructor; [assumption|].
      eapply Forall_impl; [|exact Hy]. simpl. intros z Hz.
      eapply string_leb_trans; eassumption.
    + constructor; [auto|].
      eapply Permutation_Forall; [apply insert_desc_perm|].
      constructor; [|assumption]. now apply string_leb_false.
Qed.

Lemma order_by_date_desc_sorted (l : list row) :
  date_desc (order_by_date_desc l).
Proof.
  induction l as [|x l IH]; simpl.
  - constructor.
  - now apply insert_desc_sorted.
Qed.

Lemma insert_desc_first (x : row) (l : list row) :
  Forall (fun z => (date z <=? date x)%string = true) l ->
  insert_desc x l = x :: l.
Proof.
  destruct l as [|y l]; simpl; [reflexivity|].
  intros H. inversion H as [|? ? Hy _]; subst. now rewrite Hy.
Qed.

(** Sorting and selecting rows can be done in either order. *)
Lemma filter_insert_desc (p : row -> bool) (x : row) (l : list row) :
  date_desc l ->
  filter p (insert_desc x l)
  = if p x then insert_desc x (filter p l) else filter p l.
Proof.
  unfold date_desc.
  induction l as [|y l IH]; intros Hs.
  - simpl. now destruct (p x).
  - inversion Hs as [|? ? Hl Hy]; subst. cbn [insert_desc].
    destruct (date y <=? date x)%string eqn:E.
    + transitivity (if p x then x :: filter p (y :: l)
                    else filter p (y :: l)); [reflexivity|].
      destruct (p x); [|reflexivity].
      symmetry. apply insert_desc_first.
      assert (Hall : Forall (fun z => (date z <=? date x)%string = true)
                            (y :: l)).
      { constructor; [assumption|].
        eapply Forall_impl; [|exact Hy]. simpl. intros z Hz.
        eapply string_leb_trans; eassumption. }
      rewrite Forall_forall in *. intros z Hz.
      apply Hall. apply filter_In in Hz. apply Hz.
    + cbn [filter]. rewrite (IH Hl).
      destruct (p y), (p x); try reflexivity.
      cbn [insert_desc]. now rewrite E.
Qed.

Lemma filter_order_by_date_desc (p : row -> bool) (l : list row) :
  filter p (order_by_date_desc l) = order_by_date_desc (filter p l).
Proof.
  induction l as [|x l IH]; simpl; [reflexivity|].
  rewrite filter_insert_desc by apply order_by_date_desc_sorted.
  rewrite IH. now destruct (p x).
Qed.

(** The order depends on the rows' fields only, not on their ids. *)
Lemma insert_desc_fields (x y : row) (l1 l2 : list row) :
  fields x = fields y -> map fields l1 = map fields l2 ->
  map fields (insert_desc x l1) = map fields (insert_desc y l2).
Proof.
  intros Hxy. revert l2.
  assert (Hd : date x = date y) by (unfold fields in Hxy; congruence).
  induction l1 as [|a l1 IH]; intros [|b l2]; simpl; try discriminate.
  - intros _. now rewrite Hxy.
  - intros H. injection H as Ha Hc Hd' H.
    assert (Hab : fields a = fields b) by (unfold fields; congruence).
    rewrite Hd, Hd'. destruct (date b <=? date y)%string; simpl.
    + now rewrite Hxy, Hab, H.
    + rewrite Hab. f_equal. auto.
Qed.

Lemma order_by_date_desc_fields (l1 l2 : list row) :
  map fields l1 = map fields l2 ->
  map fields (order_by_date_desc l1) = map fields (order_by_date_desc l2).
Proof.
  revert l2. induction l1 as [|a l1 IH]; intros [|b l2]; simpl;
    try discriminate; auto.
  intros H. injection H as Ha Hc Hd H.
  apply insert_desc_fields; auto.
  unfold fields; congruence.
Qed.

Lemma get_all_expenses_ids (db : table) :
  Permutation (ids (rows db)) (ids (get_all_expenses db)).
Proof. apply Permutation_map, order_by_date_desc_perm. Qed.

End Ordering.

(** ** The record store: deleting, adding, listing *)

Section StoreOperations.
Import DataStorage.

Lemma dense_from_seq (m : nat) (l : list Z) :
  dense_from (Z.of_nat m) l = true ->
  l = map Z.of_nat (List.seq m (List.length l)).
Proof.
  revert m. induction l as [|x l IH]; intros m; simpl; [reflexivity|].
  rewrite andb_true_iff, Z.eqb_eq. intros [-> H]. f_equal.
  apply IH. now rewrite Nat2Z.inj_succ.
Qed.

Lemma without_length (k : Z) (l : list row) :
  NoDup (ids l) -> In k (ids l) ->
  List.length (without k l) = (List.length l - 1)%nat.
Proof.
  intros Hnd Hin.
  destruct (without_split k l Hnd Hin) as (b & r & a & Hl & _ & Hw).
  rewrite Hw, Hl, !length_app. simpl. lia.
Qed.

(** C1.  Deleting the id of a stored record takes exactly that record
    out of the table and out of what [get_all_expenses] returns; the
    records that remain keep their fields and their relative order, and
    their ids become [1, 2, ..., n-1] in storage order. *)
Theorem delete_expense_removes_and_renumbers (db : table) (k : Z) :
  db_ok db = true ->
  In k (ids (rows db)) ->
  let db' := delete_expense k db in
  (exists before r after,
      rows db = before ++ r :: after /\ id r = k /\
      map fields (rows db') = map fields (before ++ after))
  /\ ids (rows db')
     = map Z.of_nat (List.seq 1 (List.length (rows db) - 1))
  /\ (exists before r after,
         get_all_expenses db = before ++ r :: after /\ id r = k /\
         map fields (get_all_expenses db') = map fields (before ++ after)).
Proof.
  intros Hok Hin db'.
  pose proof (db_ok_numbered _ Hok) as [Hd _].
  pose proof (dense_from_NoDup _ _ Hd) as Hnd.
  pose proof (delete_expense_fields k db) as Hf. fold db' in Hf.
  split; [|split].
  - destruct (without_split k _ Hnd Hin) as (b & r & a & Hl & Hr & Hw).
    exists b, r, a. now rewrite <- Hw.
  - destruct (delete_expense_numbered k db) as [Hd' _]. fold db' in Hd'.
    rewrite (dense_from_seq 1 _ Hd'). do 2 f_equal.
    unfold ids. rewrite length_map, (fields_length _ _ Hf).
    now apply without_length.
  - assert (Hnd' : NoDup (ids (get_all_expenses db)))
      by (eapply Permutation_NoDup;
          [apply get_all_expenses_ids | assumption]).
    assert (Hin' : In k (ids (get_all_expenses db)))
      by (eapply Permutation_in;
          [apply get_all_expenses_ids | assumption]).
    destruct (without_split k _ Hnd' Hin') as (b & r & a & Hl & Hr & Hw).
    exists b, r, a. repeat split; auto.
    rewrite <- Hw. unfold get_all_expenses, without.
    rewrite filter_order_by_date_desc.
    now apply order_by_date_desc_fields.
Qed.

Lemma delete_expense_removes_and_renumbers_witness :
  db_ok three_expenses = true
  /\ In 2 (ids (rows three_expenses))
  /\ ids (rows (delete_expense 2 three_expenses)) = [1; 2]
  /\ map category (get_all_expenses (delete_expense 2 three_expenses))
     = ["Food"; "Transportation"]%string.
Proof.
  assert (Hok : db_ok three_expenses = true) by reflexivity.
  assert (Hin : In 2 (ids (rows three_expenses))) by (simpl; auto).
  pose proof (delete_expense_removes_and_renumbers three_expenses 2
                Hok Hin) as (_ & Hids & _).
  split; [exact Hok | split; [exact Hin | split; [exact Hids |]]].
  reflexivity.
Defined.

(** C5.  Deleting an id that no record has leaves the database as it
    was: the same rows with the same ids in the same order (and so the
    same result of [get_all_expenses]). *)
Theorem delete_expense_absent_id (db : table) (k : Z) :
  db_ok db = true ->
  ~ In k (ids (rows db)) ->
  delete_expense k db = db
  /\ get_all_expenses (delete_expense k db) = get_all_expenses db.
Proof.
  intros Hok Hin.
  assert (E : delete_expense k db = db).
  { pose proof (db_ok_numbered _ Hok) as [Hd Hs].
    destruct (delete_expense_numbered k db) as [Hd' Hs'].
    pose proof (delete_expense_fields k db) as Hf.
    rewrite (without_absent _ _ Hin) in Hf.
    assert (Hrows : rows (delete_expense k db) = rows db).
    { apply row_ext; [assumption|].
      apply (dense_from_unique 1); auto.
      unfold ids. rewrite !length_map. now apply fields_length. }
    destruct db as [l s], (delete_expense k {| rows := l; seq := s |})
      as [l' s'] eqn:E'.
    simpl in *. subst. reflexivity. }
  split; [assumption | now rewrite E].
Qed.

Lemma delete_expense_absent_id_witness :
  db_ok three_expenses = true
  /\ ~ In 7 (ids (rows three_expenses))
  /\ delete_expense 7 three_expenses = three_expenses.
Proof.
  assert (Hok : db_ok three_expenses = true) by reflexivity.
  assert (Hin : ~ In 7 (ids (rows three_expenses)))
    by (simpl; intros [H|[H|[H|[]]]]; discriminate H).
  split; [exact Hok | split; [exact Hin |]].
  exact (proj1 (delete_expense_absent_id three_expenses 7 Hok Hin)).
Defined.

(** C3 (as the code has it).  The store-level add checks nothing about
    the sign of the amount: for every amount [<= 0] it raises no error
    and appends one row holding that amount under the next id. *)
Theorem add_expense_accepts_nonpositive
        (a : pyfloat) (c d : string) (db : table) :
  py_le0 a = true ->
  last_rowid db < MAX_ROWID ->
  add_expense a c d db = Ok (insert_row db a c d)
  /\ rows (insert_row db a c d)
     = rows db ++ [{| id := last_rowid db + 1; amount := a;
                      category := c; date := d |}].
Proof.
  intros Ha Hid. split; [|reflexivity].
  unfold add_expense.
  destruct (Z.leb_spec MAX_ROWID (last_rowid db)) as [H|_]; [lia|].
  destruct a; try discriminate Ha; reflexivity.
Qed.

Lemma add_expense_accepts_nonpositive_witness :
  py_le0 (PyFin (qc (-5) 1)) = true
  /\ last_rowid empty_table < MAX_ROWID
  /\ add_expense (PyFin (qc (-5) 1)) "Food" (strftime jan15) empty_table
     = Ok (insert_row empty_table (PyFin (qc (-5) 1)) "Food"
                      (strftime jan15)).
Proof.
  assert (H1 : py_le0 (PyFin (qc (-5) 1)) = true) by reflexivity.
  assert (H2 : last_rowid empty_table < MAX_ROWID) by reflexivity.
  split; [exact H1 | split; [exact H2 |]].
  exact (proj1 (add_expense_accepts_nonpositive _ "Food"%string
                  (strftime jan15) empty_table H1 H2)).
Defined.

(** C3, the claim as stated fails: an amount of [-5] is [<= 0], and the
    store-level add returns normally with a record created for it. *)
Lemma add_expense_negative_amount_stored :
  py_le0 (PyFin (qc (-5) 1)) = true
  /\ exists db',
      add_expense (PyFin (qc (-5) 1)) "Food" (strftime jan15) empty_table
      = Ok db'
      /\ get_all_expenses db'
         = [{| id := 1; amount := PyFin (qc (-5) 1); category := "Food";
               date := "15-01-2024 10:00:00" |}].
Proof.
  split; [reflexivity|].
  eexists. split; reflexivity.
Qed.

(** An empty table gives the empty list. *)
Lemma get_all_expenses_empty : get_all_expenses empty_table = [].
Proof. reflexivity. Qed.

(** What [get_all_expenses] does guarantee: the stored rows, ordered by
    their date texts from the largest to the smallest. *)
Lemma get_all_expenses_sorted (db : table) :
  date_desc (get_all_expenses db)
  /\ Permutation (rows db) (get_all_expenses db).
Proof.
  split.
  - apply order_by_date_desc_sorted.
  - apply order_by_date_desc_perm.
Qed.

End StoreOperations.

(** ** Aggregation: sums do not depend on the order of the rows *)

Lemma py_add_comm (x y : pyfloat) : py_add x y = py_add y x.
Proof.
  destruct x as [a|s|], y as [b|t|]; simpl; try reflexivity.
  - now rewrite Qcplus_comm.
  - destruct s, t; reflexivity.
Qed.

Lemma py_add_assoc (x y z : pyfloat) :
  py_add (py_add x y) z = py_add x (py_add y z).
Proof.
  destruct x as [a|s|], y as [b|t|], z as [c|u|]; simpl; try reflexivity;
    try (now rewrite Qcplus_assoc);
    try (destruct s; reflexivity);
    try (destruct s, t; reflexivity);
    try (destruct t, u; reflexivity);
    try (destruct s, u; reflexivity);
    try (destruct s, t, u; reflexivity).
Qed.

Lemma py_add_swap (x y z : pyfloat) :
  py_add (py_add x y) z = py_add (py_add x z) y.
Proof.
  now rewrite !py_add_assoc, (py_add_comm y z).
Qed.

(** The three ways two keys can compare. *)
Lemma string_compare_cases (s t : string) :
  ((s ?= t)%string = Eq /\ s = t)
  \/ ((s ?= t)%string = Lt /\ (t ?= s)%string = Gt)
  \/ ((s ?= t)%string = Gt /\ (t ?= s)%string = Lt).
Proof.
  destruct (s ?= t)%string eqn:E.
  - left. split; [reflexivity|]. now apply string_compare_eq.
  - right. left. split; [reflexivity|]. now apply string_compare_gt_lt.
  - right. right. split; [reflexivity|]. now apply string_compare_gt_lt.
Qed.

Lemma add_to_group_comm (c1 c2 : string) (a1 a2 : pyfloat)
      (g : list (string * pyfloat)) :
  add_to_group c1 a1 (add_to_group c2 a2 g)
  = add_to_group c2 a2 (add_to_group c1 a1 g).
Proof.
  induction g as [|[c s] g IH].
  - simpl.
    destruct (string_compare_cases c1 c2) as [[E ->]|[[E E']|[E E']]].
    + rewrite string_compare_refl. now rewrite py_add_comm.
    + now rewrite E, E'.
    + now rewrite E, E'.
  - cbn [add_to_group].
    destruct (string_compare_cases c1 c) as [[E1 ->]|[[E1 E1']|[E1 E1']]];
      destruct (string_compare_cases c2 c) as [[E2 ->]|[[E2 E2']|[E2 E2']]];
      rewrite ?E1, ?E2; cbn [add_to_group];
      rewrite ?string_compare_refl, ?E1, ?E2, ?E1', ?E2';
      try reflexivity.
    + now rewrite py_add_swap.
    + destruct (string_compare_cases c1 c2) as [[E ->]|[[E E']|[E E']]];
        rewrite ?string_compare_refl, ?E, ?E'; cbn [add_to_group];
        rewrite ?E1, ?E2; try reflexivity.
      now rewrite py_add_comm.
    + assert (E : (c1 ?= c2)%string = Lt).
      { apply (string_compare_lt_trans _ c); [assumption|].
        now apply string_compare_gt_lt. }
      rewrite (proj2 (string_compare_gt_lt c2 c1) E).
      cbn [add_to_group]; rewrite ?E2; reflexivity.
    + assert (E : (c2 ?= c1)%string = Lt).
      { apply (string_compare_lt_trans _ c); [assumption|].
        now apply string_compare_gt_lt. }
      rewrite (proj2 (string_compare_gt_lt c1 c2) E).
      cbn [add_to_group]; rewrite ?E1; reflexivity.
    + now rewrite IH.
Qed.

Section FoldOrder.
Context {A B : Type} (f : A -> B -> A).
Hypothesis f_swap : forall a x y, f (f a x) y = f (f a y) x.

Lemma fold_left_permutation (l l' : list B) :
  Permutation l l' -> forall a, fold_left f l a = fold_left f l' a.
Proof.
  induction 1 as [|x l l' _ IH|x y l|l l' l'' _ IH1 _ IH2]; intros a; simpl.
  - reflexivity.
  - apply IH.
  - now rewrite f_swap.
  - now rewrite IH1.
Qed.

Lemma fold_left_as_fold_right (l : list B) (a : A) :
  fold_left f l a = fold_right (fun x acc => f acc x) a l.
Proof.
  rewrite (fold_left_permutation _ _ (Permutation_rev l)).
  transitivity (fold_right (fun x acc => f acc x) a (rev (rev l)));
    [|now rewrite rev_involutive].
  now rewrite fold_left_rev_right.
Qed.
End FoldOrder.

Lemma group_step_swap g x y :
  group_step (group_step g x) y = group_step (group_step g y) x.
Proof. apply add_to_group_comm. Qed.

Lemma groupby_category_sum_cons (r : DataStorage.row)
      (l : list DataStorage.row) :
  groupby_category_sum (r :: l)
  = add_to_group (DataStorage.category r) (skipna (DataStorage.amount r))
                 (groupby_category_sum l).
Proof.
  unfold groupby_category_sum.
  rewrite !(fold_left_as_fold_right group_step group_step_swap).
  reflexivity.
Qed.



(** ** Aggregation: what the totals are *)

Section Totals.
Import DataStorage.

Lemma add_to_group_keys (c : string) (a : pyfloat)
      (g : list (string * pyfloat)) (k : string) :
  In k (map fst (add_to_group c a g)) <-> k = c \/ In k (map fst g).
Proof.
  induction g as [|[c' s] g IH]; simpl.
  - intuition.
  - destruct (c ?= c')%string eqn:E; simpl.
    + apply string_compare_eq in E. subst. intuition.
    + intuition.
    + rewrite IH. intuition.
Qed.

Lemma add_to_group_sorted (c : string) (a : pyfloat)
      (g : list (string * pyfloat)) :
  keys_ascending g -> keys_ascending (add_to_group c a g).
Proof.
  unfold keys_ascending.
  induction g as [|[c' s] g IH]; simpl; intros Hs.
  - repeat constructor.
  - inversion Hs as [|? ? Hg Hc']; subst.
    destruct (c ?= c')%string eqn:E; simpl.
    + constructor; assumption.
    + constructor; [assumption|]. constructor; [assumption|].
      eapply Forall_impl; [|exact Hc']. simpl. intros k Hk.
      eapply string_compare_lt_trans; eassumption.
    + constructor; [auto|].
      rewrite Forall_forall in *. intros k Hk.
      apply add_to_group_keys in Hk. destruct Hk as [->|Hk]; auto.
      now apply string_compare_gt_lt.
Qed.

Lemma groupby_category_sum_sorted (l : list row) :
  keys_ascending (groupby_category_sum l).
Proof.
  induction l as [|r l IH].
  - constructor.
  - rewrite groupby_category_sum_cons. now apply add_to_group_sorted.
Qed.





Lemma assoc_keys (c : string) (g : list (string * pyfloat)) :
  In c (map fst g) <-> assoc c g <> None.
Proof.
  induction g as [|[c' s] g IH]; simpl; [intuition|].
  destruct (String.eqb_spec c c') as [->|N].
  - split; [discriminate | auto].
  - rewrite <- IH. intuition congruence.
Qed.













End Totals.

(** ** The chart *)

Section Chart.
Import DataStorage.

Lemma groupby_category_sum_keys (c : string) (l : list row) :
  In c (map fst (groupby_category_sum l)) <-> In c (map category l).
Proof.
  induction l as [|r l IH]; [simpl; tauto|].
  rewrite groupby_category_sum_cons, add_to_group_keys, IH.
  simpl. intuition.
Qed.







(** C7.  With no records the chart call shows the information dialog
    and nothing else: no figure is drawn.  The same holds for the chart
    button of a program started on an empty database. *)
Theorem create_pie_chart_no_expenses :
  create_pie_chart [] = Ok [showinfo "Info" "No expenses to show."]
  /\ ExpenseTrackerApp.show_pie_chart (ExpenseTrackerApp.__init__ None)
     = ExpenseTrackerApp.returns
         (ExpenseTrackerApp.__init__ None)
         [showinfo "Info" "No expenses to show."].
Proof. split; reflexivity. Qed.

End Chart.

(** ** The controller *)

Section Controller.
Import DataStorage ExpenseTrackerApp.

Variable float : string -> option pyfloat.
Variable tk_text : pyfloat -> string.

Lemma init_ok (file : option table) :
  db_ok (_initialize_db file) = true -> app_ok (__init__ file).
Proof.
  intros H. split; [exact H|]. split; [reflexivity|]. discriminate.
Qed.

Lemma add_expense_ok (now : datetime) (a : app) :
  app_ok a -> app_ok (after (ExpenseTrackerApp.add_expense float now a)).
Proof.
  intros Hok. unfold ExpenseTrackerApp.add_expense, input_error.
  destruct (not_str (amount_entry a) || not_str (category_combobox a));
    [exact Hok|].
  destruct (float (amount_entry a)) as [v|]; [|exact Hok].
  destruct (py_le0 v); [exact Hok|].
  destruct (DataStorage.add_expense v (category_combobox a) (strftime now)
                                    (storage a)) as [db|e] eqn:E;
    [|exact Hok].
  destruct Hok as (Hdb & _ & _).
  split; [|split]; simpl.
  - eapply add_expense_db_ok; eassumption.
  - reflexivity.
  - discriminate.
Qed.

Lemma delete_expense_ok (a : app) :
  app_ok a -> app_ok (after (ExpenseTrackerApp.delete_expense a)).
Proof.
  intros Hok. unfold ExpenseTrackerApp.delete_expense.
  destruct (selected_expense_id a) as [k|]; [|exact Hok].
  destruct (k =? 0); [exact Hok|].
  destruct Hok as (Hdb & _ & _).
  split; [|split]; simpl.
  - now apply delete_expense_db_ok.
  - reflexivity.
  - discriminate.
Qed.

Lemma on_row_select_ok (sel : list nat) (a : app) :
  app_ok a -> app_ok (on_row_select tk_text sel a).
Proof.
  intros Hok. unfold on_row_select.
  destruct sel as [|i _]; [exact Hok|].
  destruct (nth_error (expense_table a) i) as [values|] eqn:E; [|exact Hok].
  destruct Hok as (Hdb & Htab & _).
  split; [exact Hdb|]. split; [exact Htab|]. simpl.
  intros k Hk. injection Hk as <-.
  apply in_map. eapply nth_error_In. eassumption.
Qed.

Lemma show_pie_chart_after (a : app) : after (show_pie_chart a) = a.
Proof.
  unfold show_pie_chart.
  now destruct (create_pie_chart (get_all_expenses (storage a))).
Qed.

(** Every state the program passes through is in order. *)
Lemma reachable_app_ok (a : app) : reachable float tk_text a -> app_ok a.
Proof.
  induction 1 as [|text a _ IH|text a _ IH|sel a _ IH|now a _ IH
                  |a _ IH|a _ IH|a _ IH|a _ IH].
  - now apply init_ok.
  - exact IH.
  - exact IH.
  - now apply on_row_select_ok.
  - now apply add_expense_ok.
  - now apply delete_expense_ok.
  - now rewrite show_pie_chart_after.
  - exact IH.
  - apply init_ok. apply IH.
Qed.

(** When the submit is turned down, and when it goes through. *)
Lemma add_expense_rejects (now : datetime) (a : app) :
  amount_entry a = ""%string \/ category_combobox a = ""%string
  \/ float (amount_entry a) = None
  \/ (exists v, float (amount_entry a) = Some v /\ py_le0 v = true) ->
  exists message,
    ExpenseTrackerApp.add_expense float now a
    = returns a [showerror "Input Error" message].
Proof.
  unfold ExpenseTrackerApp.add_expense, input_error.
  intros [E|[E|[E|(v & E & Hv)]]].
  - rewrite E. simpl. eauto.
  - rewrite E. rewrite orb_true_r. eauto.
  - destruct (_ || _); [eauto|]. rewrite E. eauto.
  - destruct (_ || _); [eauto|]. rewrite E, Hv. eauto.
Qed.

Lemma add_expense_accepts (now : datetime) (a : app) (v : pyfloat) :
  amount_entry a <> ""%string -> category_combobox a <> ""%string ->
  float (amount_entry a) = Some v ->
  py_le0 v = false -> is_nan v = false ->
  last_rowid (storage a) < MAX_ROWID ->
  ExpenseTrackerApp.add_expense float now a
  = returns
      (clear_inputs
         (load_expenses
            (set_storage
               (insert_row (storage a) v (category_combobox a)
                           (strftime now)) a)))
      [showinfo "Success" "Expense added successfully!"].
Proof.
  intros Ha Hc Hf Hv Hn Hid.
  unfold ExpenseTrackerApp.add_expense, DataStorage.add_expense.
  destruct (amount_entry a) as [|x s]; [congruence|].
  destruct (category_combobox a) as [|y t]; [congruence|].
  cbn [not_str orb]. rewrite Hf, Hv, Hn.
  destruct (Z.leb_spec MAX_ROWID (last_rowid (storage a))); [lia|].
  reflexivity.
Qed.

(** An amount text that reads as NaN passes the check [amount <= 0], and
    the insert then fails on the NOT NULL constraint: the exception
    leaves the callback and no dialog is shown. *)
Lemma add_expense_nan (now : datetime) (a : app) :
  amount_entry a <> ""%string -> category_combobox a <> ""%string ->
  float (amount_entry a) = Some PyNaN ->
  last_rowid (storage a) < MAX_ROWID ->
  ExpenseTrackerApp.add_expense float now a = raises a IntegrityError.
Proof.
  intros Ha Hc Hf Hid.
  unfold ExpenseTrackerApp.add_expense, DataStorage.add_expense.
  destruct (amount_entry a) as [|x s]; [congruence|].
  destruct (category_combobox a) as [|y t]; [congruence|].
  cbn [not_str orb]. rewrite Hf. cbn [py_le0 is_nan].
  destruct (Z.leb_spec MAX_ROWID (last_rowid (storage a))); [lia|].
  reflexivity.
Qed.

(** C9.  Whenever a submit succeeds, from any state and whatever row was
    selected, the selection is empty afterwards and both input fields
    are cleared. *)
Theorem add_expense_resets_selection (now : datetime) (a : app) :
  shown (ExpenseTrackerApp.add_expense float now a)
  = [showinfo "Success" "Expense added successfully!"] ->
  let a' := after (ExpenseTrackerApp.add_expense float now a) in
  selected_expense_id a' = None
  /\ amount_entry a' = ""%string
  /\ category_combobox a' = ""%string.
Proof.
  unfold ExpenseTrackerApp.add_expense, input_error.
  destruct (not_str (amount_entry a) || not_str (category_combobox a));
    [discriminate|].
  destruct (float (amount_entry a)) as [v|]; [|discriminate].
  destruct (py_le0 v); [discriminate|].
  destruct (DataStorage.add_expense v (category_combobox a) (strftime now)
                                    (storage a)) as [db|e];
    [|discriminate].
  intros _. repeat split.
Qed.

End Controller.

Lemma add_expense_resets_selection_witness :
  ExpenseTrackerApp.selected_expense_id form_filled = Some 1
  /\ ExpenseTrackerApp.shown
       (ExpenseTrackerApp.add_expense float_plain mar09 form_filled)
     = [showinfo "Success" "Expense added successfully!"]
  /\ ExpenseTrackerApp.selected_expense_id
       (ExpenseTrackerApp.after
          (ExpenseTrackerApp.add_expense float_plain mar09 form_filled))
     = None.
Proof.
  assert (H : ExpenseTrackerApp.shown
                (ExpenseTrackerApp.add_expense float_plain mar09 form_filled)
              = [showinfo "Success" "Expense added successfully!"])
    by reflexivity.
  split; [reflexivity | split; [exact H |]].
  exact (proj1 (add_expense_resets_selection float_plain mar09 form_filled H)).
Defined.

Section Selection.
Import DataStorage ExpenseTrackerApp.



End Selection.

(** ** Two runs of the program *)

Section Runs.
Import DataStorage ExpenseTrackerApp.

(** C4, evaluated: the amount text [nan] with category [Food].  The text
    is not empty and reads as NaN, the test [amount <= 0] is false for
    it, and the callback ends with the insert's [IntegrityError]: no
    error dialog is shown (the store itself is unchanged). *)
Theorem add_expense_nan_no_dialog :
  float_plain (amount_entry nan_typed) = Some PyNaN
  /\ py_le0 PyNaN = false
  /\ ExpenseTrackerApp.add_expense float_plain jan15 nan_typed
     = raises nan_typed IntegrityError
  /\ shown (ExpenseTrackerApp.add_expense float_plain jan15 nan_typed) = [].
Proof. repeat split. Qed.

(** C2, evaluated.  Two expenses are entered through the form, the first
    on 15 January and the second on 1 February of the same year.  The
    table then lists the January one first, although it is the older:
    the text ["15-01-2024 ..."] is larger than ["01-02-2024 ..."].  At the
    level of the store the result is the same whichever of the two is
    added first. *)
Theorem get_all_expenses_not_newest_first :
  earlier jan15 feb01
  /\ (let a0 := ExpenseTrackerApp.__init__ None in
      let a1 := after (ExpenseTrackerApp.add_expense
                         float_plain jan15
                         (type_category "Food" (type_amount "10" a0))) in
      let a2 := after (ExpenseTrackerApp.add_expense
                         float_plain feb01
                         (type_category "Food" (type_amount "20" a1))) in
      map date (expense_table a2)
      = ["15-01-2024 10:00:00"; "01-02-2024 09:30:00"]%string
      /\ map date (get_all_expenses (storage a2))
         = ["15-01-2024 10:00:00"; "01-02-2024 09:30:00"]%string)
  /\ (exists db1 db2,
         DataStorage.add_expense
           (PyFin (qc 20 1)) "Food" (strftime feb01) empty_table = Ok db1
         /\ DataStorage.add_expense
              (PyFin (qc 10 1)) "Food" (strftime jan15) db1 = Ok db2
         /\ map date (get_all_expenses db2)
            = ["15-01-2024 10:00:00"; "01-02-2024 09:30:00"]%string).
Proof.
  split; [reflexivity|].
  split; [split; reflexivity|].
  do 2 eexists. split; [reflexivity | split; reflexivity].
Qed.

End Runs.

(** * Further properties *)

(** ** The record store: how the operations compose *)

Section StoreComposition.
Import DataStorage.

Lemma get_all_expenses_In (db : table) (r : row) :
  In r (get_all_expenses db) <-> In r (rows db).
Proof.
  split; apply Permutation_in;
    [symmetry|]; apply order_by_date_desc_perm.
Qed.

Lemma db_ok_last_rowid (db : table) :
  db_ok db = true -> last_rowid db = Z.of_nat (List.length (rows db)).
Proof.
  intros Hok. pose proof (db_ok_numbered _ Hok) as Hn.
  rewrite (numbered_last_rowid _ Hn). apply Hn.
Qed.

Lemma db_ok_ids_range (db : table) (k : Z) :
  db_ok db = true -> In k (ids (rows db)) ->
  1 <= k <= Z.of_nat (List.length (rows db)).
Proof.
  intros Hok Hin. destruct (db_ok_numbered _ Hok) as [Hd _].
  apply (dense_from_bounds _ _ Hd) in Hin.
  unfold ids in Hin. rewrite length_map in Hin. lia.
Qed.

(** A table with ids [1..n] and counter [n] is what copying its rows into
    a fresh table gives. *)
Lemma rebuild_numbered_rows (db : table) :
  numbered db -> rebuild (rows db) empty_table = db.
Proof.
  intros [Hd Hs].
  destruct (rebuild_numbered (rows db) _ numbered_empty) as [Hd' Hs'].
  pose proof (rebuild_fields (rows db) empty_table) as Hf. simpl in Hf.
  assert (Hrows : rows (rebuild (rows db) empty_table) = rows db).
  { apply row_ext; [assumption|].
    apply (dense_from_unique 1); auto.
    unfold ids. rewrite !length_map. now apply fields_length. }
  destruct db as [l s]. cbn [rows seq] in *.
  destruct (rebuild l empty_table) as [l' s']. cbn [rows seq] in *.
  now subst.
Qed.

Lemma without_app (k : Z) (l1 l2 : list row) :
  without k (l1 ++ l2) = without k l1 ++ without k l2.
Proof. apply filter_app. Qed.

(** X1.  A record added to the store is listed: the add returns normally,
    the new row carries the amount, category and date given and the id
    [n + 1], which no stored row has, and every row listed before is
    listed still. *)
Theorem add_expense_then_listed
        (a : pyfloat) (c d : string) (db : table) :
  db_ok db = true ->
  is_nan a = false ->
  Z.of_nat (List.length (rows db)) < MAX_ROWID ->
  let r := {| id := Z.of_nat (List.length (rows db)) + 1;
              amount := a; category := c; date := d |} in
  exists db',
    add_expense a c d db = Ok db'
    /\ rows db' = rows db ++ [r]
    /\ In r (get_all_expenses db')
    /\ ~ In (id r) (ids (rows db))
    /\ (forall x, In x (get_all_expenses db) -> In x (get_all_expenses db')).
Proof.
  intros Hok Ha Hid r. pose proof (db_ok_last_rowid _ Hok) as Hl.
  exists (insert_row db a c d).
  assert (Hrows : rows (insert_row db a c d) = rows db ++ [r])
    by (unfold insert_row, r; simpl; now rewrite Hl).
  split; [|split; [exact Hrows | split; [|split]]].
  - unfold add_expense. rewrite Hl, Ha.
    destruct (Z.leb_spec MAX_ROWID (Z.of_nat (List.length (rows db))));
      [lia | reflexivity].
  - apply get_all_expenses_In. rewrite Hrows. apply in_or_app.
    right. now left.
  - intros Hin. apply (db_ok_ids_range _ _ Hok) in Hin. simpl in Hin. lia.
  - intros x Hx. apply get_all_expenses_In. rewrite Hrows.
    apply in_or_app. left. now apply get_all_expenses_In.
Qed.

Lemma add_expense_then_listed_witness :
  db_ok three_expenses = true
  /\ exists db',
      add_expense (PyFin (qc 7 2)) "Other" (strftime mar09) three_expenses
      = Ok db'
      /\ In {| id := 4; amount := PyFin (qc 7 2); category := "Other";
               date := strftime mar09 |} (get_all_expenses db').
Proof.
  assert (Hok : db_ok three_expenses = true) by reflexivity.
  assert (Ha : is_nan (PyFin (qc 7 2)) = false) by reflexivity.
  assert (Hid : Z.of_nat (List.length (rows three_expenses)) < MAX_ROWID)
    by reflexivity.
  split; [exact Hok|].
  destruct (add_expense_then_listed (PyFin (qc 7 2)) "Other"%string
              (strftime mar09) three_expenses Hok Ha Hid)
    as (db' & Hadd & _ & Hin & _).
  exists db'. split; [exact Hadd | exact Hin].
Defined.

(** X2.  Adding a record and then deleting the id it was given leaves the
    database exactly as it was before the add. *)
Theorem add_then_delete_restores
        (a : pyfloat) (c d : string) (db db' : table) :
  db_ok db = true ->
  add_expense a c d db = Ok db' ->
  delete_expense (Z.of_nat (List.length (rows db)) + 1) db' = db.
Proof.
  intros Hok Hadd. pose proof (db_ok_last_rowid _ Hok) as Hl.
  unfold add_expense in Hadd.
  destruct (MAX_ROWID <=? last_rowid db); [discriminate|].
  destruct (is_nan a); [discriminate|]. injection Hadd as <-.
  unfold delete_expense, insert_row. cbn [rows]. rewrite Hl, without_app.
  cbn [without filter id]. rewrite Z.eqb_refl. cbn [negb].
  rewrite app_nil_r, without_absent.
  - apply rebuild_numbered_rows. now apply db_ok_numbered.
  - intros Hin. apply (db_ok_ids_range _ _ Hok) in Hin. lia.
Qed.

Lemma add_then_delete_restores_witness :
  db_ok three_expenses = true
  /\ exists db',
      add_expense (PyFin (qc 7 2)) "Other" (strftime mar09) three_expenses
      = Ok db'
      /\ delete_expense 4 db' = three_expenses.
Proof.
  assert (Hok : db_ok three_expenses = true) by reflexivity.
  split; [exact Hok|]. eexists. split; [reflexivity|].
  exact (add_then_delete_restores (PyFin (qc 7 2)) "Other"%string
           (strftime mar09) three_expenses _ Hok eq_refl).
Defined.

(** X3.  Whatever ids the table held, and whether or not the id given was
    among them, after a delete the ids are [1, 2, ..., m] in storage
    order and the counter is [m]; the rows are those whose id was not the
    given one, fields and order kept. *)
Theorem delete_expense_compacts (k : Z) (db : table) :
  let m := List.length (without k (rows db)) in
  ids (rows (delete_expense k db)) = map Z.of_nat (List.seq 1 m)
  /\ seq (delete_expense k db) = Z.of_nat m
  /\ map fields (rows (delete_expense k db))
     = map fields (without k (rows db)).
Proof.
  intros m. destruct (delete_expense_numbered k db) as [Hd Hs].
  pose proof (delete_expense_fields k db) as Hf.
  assert (Hlen : List.length (rows (delete_expense k db)) = m)
    by now apply fields_length.
  split; [|split; [now rewrite Hs, Hlen | exact Hf]].
  rewrite (dense_from_seq 1 _ Hd). unfold ids.
  now rewrite length_map, Hlen.
Qed.

(** Removing by id from rows numbered from [s] is removing by position. *)
Lemma without_dense_split (s : Z) (l1 l2 : list row) (r : row) :
  dense_from s (ids (l1 ++ r :: l2)) = true ->
  id r = s + Z.of_nat (List.length l1)
  /\ without (id r) (l1 ++ r :: l2) = l1 ++ l2.
Proof.
  intros Hd. pose proof (dense_from_NoDup _ _ Hd) as Hnd.
  unfold ids in Hd. rewrite map_app, dense_from_app in Hd.
  apply andb_true_iff in Hd. destruct Hd as [_ Hd].
  rewrite length_map in Hd. cbn [map dense_from] in Hd.
  apply andb_true_iff in Hd. destruct Hd as [Hr _].
  apply Z.eqb_eq in Hr. split; [exact Hr|].
  unfold ids in Hnd. rewrite map_app in Hnd. cbn [map] in Hnd.
  pose proof (NoDup_remove_2 _ _ _ Hnd) as Hnot.
  rewrite without_app. cbn [without filter]. rewrite Z.eqb_refl. cbn [negb].
  fold (without (id r) l2).
  rewrite !without_absent; [reflexivity| |];
    intros Hin; apply Hnot, in_or_app; [right|left]; exact Hin.
Qed.

(** X4.  Ids are positions: deleting the same id a second time removes
    the record that followed the first one in storage order. *)
Theorem delete_expense_twice
        (db : table) (before after : list row) (r1 r2 : row) :
  db_ok db = true ->
  rows db = before ++ r1 :: r2 :: after ->
  map fields (rows (delete_expense (id r1) (delete_expense (id r1) db)))
  = map fields (before ++ after).
Proof.
  intros Hok Hrows. destruct (db_ok_numbered _ Hok) as [Hd _].
  rewrite Hrows in Hd.
  destruct (without_dense_split 1 before (r2 :: after) r1 Hd) as [Hid Hw].
  destruct (delete_expense_numbered (id r1) db) as [Hd1 _].
  pose proof (delete_expense_fields (id r1) db) as Hf1.
  rewrite Hrows, Hw in Hf1.
  rewrite delete_expense_fields.
  (* the table after the first delete, split at the same position *)
  remember (rows (delete_expense (id r1) db)) as l eqn:El.
  assert (Hsplit : exists b x a,
             l = b ++ x :: a /\ map fields b = map fields before
             /\ fields x = fields r2 /\ map fields a = map fields after).
  { clear - Hf1. revert l Hf1.
    induction before as [|y before IH]; intros [|z l] Hf; simpl in Hf;
      try discriminate.
    - injection Hf as Ha Hc Hdt Hf. exists [], z, l.
      repeat split; auto. unfold fields. congruence.
    - injection Hf as Ha Hc Hdt Hf.
      destruct (IH l Hf) as (b & x & a & -> & Hb & Hx & Ha').
      exists (z :: b), x, a. repeat split; auto.
      simpl. rewrite Hb. f_equal. unfold fields. congruence. }
  destruct Hsplit as (b & x & a & -> & Hb & Hx & Ha).
  destruct (without_dense_split 1 b a x Hd1) as [Hidx Hwx].
  assert (Hlen : List.length b = List.length before)
    by now apply fields_length.
  assert (E : id x = id r1) by lia.
  rewrite <- E, Hwx, !map_app. now rewrite Hb, Ha.
Qed.

Lemma delete_expense_twice_witness :
  db_ok three_expenses = true
  /\ map fields
         (rows (delete_expense 1 (delete_expense 1 three_expenses)))
     = map fields [expense 3 30 "Transportation" mar09].
Proof.
  assert (Hok : db_ok three_expenses = true) by reflexivity.
  split; [exact Hok|].
  exact (delete_expense_twice three_expenses []
           [expense 3 30 "Transportation" mar09]
           (expense 1 10 "Food" jan15) (expense 2 20 "Food" feb01)
           Hok eq_refl).
Defined.

(** X5.  Ids are handed out again: after the delete of a stored id, the
    next record added gets the id [n] that the last stored record had
    before. *)
Theorem add_after_delete_reuses_id
        (k : Z) (a : pyfloat) (c d : string) (db : table) :
  db_ok db = true ->
  In k (ids (rows db)) ->
  is_nan a = false ->
  Z.of_nat (List.length (rows db)) <= MAX_ROWID ->
  let n := Z.of_nat (List.length (rows db)) in
  In n (ids (rows db))
  /\ exists db',
      add_expense a c d (delete_expense k db) = Ok db'
      /\ In {| id := n; amount := a; category := c; date := d |} (rows db').
Proof.
  intros Hok Hin Ha Hmax n.
  destruct (db_ok_numbered _ Hok) as [Hd _].
  pose proof (dense_from_NoDup _ _ Hd) as Hnd.
  pose proof (db_ok_ids_range _ _ Hok Hin) as Hk.
  pose proof (delete_expense_db_ok k db Hok) as Hok'.
  assert (Hlen : Z.of_nat (List.length (rows (delete_expense k db)))
                 = n - 1).
  { rewrite (fields_length _ _ (delete_expense_fields k db)).
    rewrite (without_length k _ Hnd Hin). lia. }
  split.
  - rewrite (dense_from_seq 1 _ Hd). unfold ids. rewrite length_map.
    apply in_map_iff. exists (List.length (rows db)). split; [reflexivity|].
    apply in_seq. lia.
  - exists (insert_row (delete_expense k db) a c d). split.
    + unfold add_expense.
      rewrite (db_ok_last_rowid _ Hok'), Hlen, Ha.
      destruct (Z.leb_spec MAX_ROWID (n - 1)); [lia | reflexivity].
    + unfold insert_row. cbn [rows].
      rewrite (db_ok_last_rowid _ Hok'), Hlen.
      apply in_or_app. right. left. f_equal. lia.
Qed.

Lemma add_after_delete_reuses_id_witness :
  db_ok three_expenses = true
  /\ In 3 (ids (rows three_expenses))
  /\ exists db',
      add_expense (PyFin (qc 7 2)) "Other" (strftime mar09)
                  (delete_expense 1 three_expenses) = Ok db'
      /\ In {| id := 3; amount := PyFin (qc 7 2); category := "Other";
               date := strftime mar09 |} (rows db').
Proof.
  assert (Hok : db_ok three_expenses = true) by reflexivity.
  assert (Hin : In 1 (ids (rows three_expenses))) by (simpl; auto).
  assert (Ha : is_nan (PyFin (qc 7 2)) = false) by reflexivity.
  assert (Hmax : Z.of_nat (List.length (rows three_expenses)) <= MAX_ROWID)
    by (vm_compute; discriminate).
  destruct (add_after_delete_reuses_id 1 (PyFin (qc 7 2)) "Other"%string
              (strftime mar09) three_expenses Hok Hin Ha Hmax)
    as (Hn & db' & Hadd & Hrow).
  split; [exact Hok | split; [exact Hn |]].
  exists db'. split; [exact Hadd | exact Hrow].
Defined.

(** X20.  The listing holds exactly the stored rows, each once, ordered
    by their date texts from the largest to the smallest. *)
Theorem get_all_expenses_listing (db : table) :
  Permutation (rows db) (get_all_expenses db)
  /\ List.length (get_all_expenses db) = List.length (rows db)
  /\ date_desc (get_all_expenses db).
Proof.
  split; [|split].
  - apply order_by_date_desc_perm.
  - symmetry. apply Permutation_length, order_by_date_desc_perm.
  - apply order_by_date_desc_sorted.
Qed.

End StoreComposition.

(** ** Date stamps and their order as text *)

Lemma digit_string (z : Z) : digit z = String (digit_ascii z) EmptyString.
Proof.
  unfold digit, digit_ascii.
  pose proof (Z.mod_pos_bound z 10 ltac:(lia)) as Hm.
  remember (z mod 10) as m eqn:Em. clear Em.
  assert (H : m = 0 \/ m = 1 \/ m = 2 \/ m = 3 \/ m = 4
              \/ m = 5 \/ m = 6 \/ m = 7 \/ m = 8 \/ m = 9) by lia.
  repeat (destruct H as [->|H]; [reflexivity|]). now subst.
Qed.

Lemma digit_ascii_compare (x y : Z) :
  Ascii.compare (digit_ascii x) (digit_ascii y) = (x mod 10 ?= y mod 10).
Proof.
  unfold Ascii.compare, digit_ascii.
  pose proof (Z.mod_pos_bound x 10 ltac:(lia)) as Hx.
  pose proof (Z.mod_pos_bound y 10 ltac:(lia)) as Hy.
  rewrite !N_ascii_embedding by lia.
  rewrite <- N2Z.inj_compare, !N2Z.inj_add, !Z2N.id by lia.
  apply Z.add_compare_mono_l.
Qed.

Lemma string_compare_cons (c c' : ascii) (s t : string) :
  (String c s ?= String c' t)%string
  = lex (Ascii.compare c c') (s ?= t)%string.
Proof. simpl. now destruct (Ascii.compare c c'). Qed.

Lemma lex_Eq_r (c : comparison) : lex c Eq = c.
Proof. now destruct c. Qed.

Lemma lex_two_digits (a b : Z) (k : comparison) :
  0 <= a < 100 -> 0 <= b < 100 ->
  lex ((a / 10) mod 10 ?= (b / 10) mod 10) (lex (a mod 10 ?= b mod 10) k)
  = lex (a ?= b) k.
Proof.
  intros Ha Hb. unfold lex.
  destruct (Z.compare_spec ((a / 10) mod 10) ((b / 10) mod 10));
    destruct (Z.compare_spec (a mod 10) (b mod 10));
    destruct (Z.compare_spec a b); try reflexivity;
    exfalso; Z.div_mod_to_equations; lia.
Qed.

Lemma lex_four_digits (a b : Z) (k : comparison) :
  0 <= a < 10000 -> 0 <= b < 10000 ->
  lex ((a / 1000) mod 10 ?= (b / 1000) mod 10)
      (lex ((a / 100) mod 10 ?= (b / 100) mod 10)
           (lex ((a / 10) mod 10 ?= (b / 10) mod 10)
                (lex (a mod 10 ?= b mod 10) k)))
  = lex (a ?= b) k.
Proof.
  intros Ha Hb. unfold lex.
  destruct (Z.compare_spec ((a / 1000) mod 10) ((b / 1000) mod 10));
    destruct (Z.compare_spec ((a / 100) mod 10) ((b / 100) mod 10));
    destruct (Z.compare_spec ((a / 10) mod 10) ((b / 10) mod 10));
    destruct (Z.compare_spec (a mod 10) (b mod 10));
    destruct (Z.compare_spec a b); try reflexivity;
    exfalso; Z.div_mod_to_equations; lia.
Qed.

Lemma valid_datetime_bounds (t : datetime) :
  valid_datetime t = true ->
  0 <= year t < 10000 /\ 0 <= month t < 100 /\ 0 <= day t < 100
  /\ 0 <= hour t < 100 /\ 0 <= minute t < 100 /\ 0 <= second t < 100.
Proof.
  unfold valid_datetime. rewrite !andb_true_iff, !Z.leb_le. lia.
Qed.

Lemma strftime_compare (a b : datetime) :
  valid_datetime a = true -> valid_datetime b = true ->
  (strftime a ?= strftime b)%string = day_first_compare a b.
Proof.
  intros Ha Hb.
  destruct (valid_datetime_bounds a Ha) as (Hy & Hm & Hd & Hh & Hmi & Hs).
  destruct (valid_datetime_bounds b Hb)
    as (Hy' & Hm' & Hd' & Hh' & Hmi' & Hs').
  unfold strftime, pad2, pad4. rewrite !digit_string. cbn [append].
  rewrite !string_compare_cons, !digit_ascii_compare, !ascii_compare_refl.
  cbn [lex String.compare]. rewrite lex_Eq_r.
  unfold day_first_compare.
  rewrite <- (lex_two_digits (day a) (day b)) by assumption.
  rewrite <- (lex_two_digits (month a) (month b)) by assumption.
  rewrite <- (lex_four_digits (year a) (year b)) by assumption.
  rewrite <- (lex_two_digits (hour a) (hour b)) by assumption.
  rewrite <- (lex_two_digits (minute a) (minute b)) by assumption.
  rewrite <- (lex_Eq_r (second a ?= second b)).
  rewrite <- (lex_two_digits (second a) (second b)) by assumption.
  now rewrite !lex_Eq_r.
Qed.

(** X6.  The date texts compare as their instants do when days are
    compared first, then months, then years, then the time of day. *)
Theorem strftime_text_order (a b : datetime) :
  valid_datetime a = true -> valid_datetime b = true ->
  (strftime a ?= strftime b)%string = day_first_compare a b.
Proof. exact (strftime_compare a b). Qed.

Lemma strftime_text_order_witness :
  valid_datetime jan15 = true /\ valid_datetime feb01 = true
  /\ (strftime jan15 ?= strftime feb01)%string = Gt
  /\ chrono_compare jan15 feb01 = Lt.
Proof.
  assert (Ha : valid_datetime jan15 = true) by reflexivity.
  assert (Hb : valid_datetime feb01 = true) by reflexivity.
  split; [exact Ha | split; [exact Hb | split; [|reflexivity]]].
  rewrite (strftime_text_order jan15 feb01 Ha Hb). reflexivity.
Defined.

Lemma lex_Eq (c k : comparison) : lex c k = Eq -> c = Eq /\ k = Eq.
Proof. destruct c; simpl; intros H; try discriminate; auto. Qed.

(** X7.  The date text determines the instant: two instants with the same
    text are the same. *)
Theorem strftime_injective (a b : datetime) :
  valid_datetime a = true -> valid_datetime b = true ->
  strftime a = strftime b -> a = b.
Proof.
  intros Ha Hb E.
  pose proof (strftime_compare a b Ha Hb) as H.
  rewrite E, string_compare_refl in H. symmetry in H.
  unfold day_first_compare in H.
  repeat (apply lex_Eq in H; destruct H as [?%Z.compare_eq H]).
  apply Z.compare_eq in H.
  destruct a, b; simpl in *; congruence.
Qed.

Lemma strftime_injective_witness :
  valid_datetime jan15 = true
  /\ strftime jan15 = "15-01-2024 10:00:00"%string
  /\ forall t, valid_datetime t = true ->
               strftime t = "15-01-2024 10:00:00"%string -> t = jan15.
Proof.
  assert (Ha : valid_datetime jan15 = true) by reflexivity.
  split; [exact Ha | split; [reflexivity|]].
  intros t Ht E. exact (strftime_injective t jan15 Ht Ha E).
Defined.

Lemma same_month_compare (a b : datetime) :
  year a = year b -> month a = month b ->
  chrono_compare a b = day_first_compare a b.
Proof.
  intros Ey Em. unfold chrono_compare, day_first_compare.
  rewrite Ey, Em, !Z.compare_refl. reflexivity.
Qed.

Lemma StronglySorted_In_impl {A : Type} (R R' : A -> A -> Prop)
      (l : list A) :
  (forall x y, In x l -> In y l -> R x y -> R' x y) ->
  StronglySorted R l -> StronglySorted R' l.
Proof.
  intros H Hs. induction Hs as [|x l Hs IH Hx]; constructor.
  - apply IH. intros a b Ha Hb. apply H; now right.
  - rewrite Forall_forall in *. intros y Hy.
    apply H; [now left | now right | now apply Hx].
Qed.

Section SameMonth.
Import DataStorage.

(** X8.  Among records stamped within one calendar month the listing is
    newest first: no record is listed after one that is older. *)
Theorem get_all_expenses_same_month
        (stamp : row -> datetime) (y m : Z) (db : table) :
  stamped_in_month stamp y m (rows db) = true ->
  StronglySorted
    (fun r1 r2 => chrono_compare (stamp r1) (stamp r2) <> Lt)
    (get_all_expenses db).
Proof.
  intros H. unfold stamped_in_month in H. rewrite forallb_forall in H.
  assert (Hrow : forall r, In r (get_all_expenses db) ->
             valid_datetime (stamp r) = true
             /\ date r = strftime (stamp r)
             /\ year (stamp r) = y /\ month (stamp r) = m).
  { intros r Hr. apply get_all_expenses_In in Hr. specialize (H r Hr).
    rewrite !andb_true_iff, String.eqb_eq, !Z.eqb_eq in H. tauto. }
  eapply StronglySorted_In_impl; [|apply order_by_date_desc_sorted].
  intros x z Hx Hz Hle.
  destruct (Hrow x Hx) as (Vx & Dx & Yx & Mx).
  destruct (Hrow z Hz) as (Vz & Dz & Yz & Mz).
  cbv beta in Hle. rewrite Dx, Dz in Hle. unfold String.leb in Hle.
  rewrite same_month_compare by congruence.
  rewrite <- (strftime_compare _ _ Vx Vz).
  rewrite (String.compare_antisym (strftime (stamp x)) (strftime (stamp z))).
  destruct (strftime (stamp z) ?= strftime (stamp x))%string; simpl;
    congruence.
Qed.

Lemma get_all_expenses_same_month_witness :
  stamped_in_month january_stamp 2024 1 (rows january_expenses) = true
  /\ map id (get_all_expenses january_expenses) = [2; 1]
  /\ StronglySorted
       (fun r1 r2 =>
          chrono_compare (january_stamp r1) (january_stamp r2) <> Lt)
       (get_all_expenses january_expenses).
Proof.
  assert (H : stamped_in_month january_stamp 2024 1
                               (rows january_expenses) = true)
    by reflexivity.
  split; [exact H | split; [reflexivity|]].
  exact (get_all_expenses_same_month january_stamp 2024 1
           january_expenses H).
Defined.

End SameMonth.

(** ** The chart: order of the wedges, shares, refused input *)

Section ChartMore.
Import DataStorage.

Lemma add_to_group_values (P : pyfloat -> Prop) (c : string) (a : pyfloat)
      (g : list (string * pyfloat)) :
  (forall x y, P x -> P y -> P (py_add x y)) ->
  P a -> Forall P (map snd g) -> Forall P (map snd (add_to_group c a g)).
Proof.
  intros Hadd Ha. induction g as [|[c' s] g IH]; simpl; intros Hg.
  - now constructor.
  - inversion Hg as [|? ? Hs Hg']; subst.
    destruct (c ?= c')%string; simpl; constructor; auto.
Qed.

Lemma groupby_category_sum_values (P : pyfloat -> Prop) (l : list row) :
  (forall x y, P x -> P y -> P (py_add x y)) ->
  (forall r, In r l -> P (skipna (amount r))) ->
  Forall P (map snd (groupby_category_sum l)).
Proof.
  intros Hadd. induction l as [|r l IH]; intros H.
  - constructor.
  - rewrite groupby_category_sum_cons. apply add_to_group_values; auto.
    + apply H. now left.
    + apply IH. intros x Hx. apply H. now right.
Qed.

Lemma groupby_category_sum_nonempty (l : list row) :
  l <> [] -> groupby_category_sum l <> [].
Proof.
  destruct l as [|r l]; [congruence|]. intros _ E.
  pose proof (proj2 (groupby_category_sum_keys (category r) (r :: l))
                    (or_introl eq_refl)) as Hin.
  now rewrite E in Hin.
Qed.

(** X9.  Whenever a chart is drawn, its wedges are exactly the categories
    of the records, one wedge each, in ascending order of the category
    names. *)
Theorem create_pie_chart_wedge_order (l : list row) (fig : figure) :
  create_pie_chart l = Ok [plt_show fig] ->
  StronglySorted (fun a b => (a ?= b)%string = Lt) (map label (wedges fig))
  /\ (forall c, In c (map label (wedges fig)) <-> In c (map category l)).
Proof.
  unfold create_pie_chart, pie. destruct l as [|r l]; [discriminate|].
  destruct (existsb py_lt0 (map snd (groupby_category_sum (r :: l))));
    [discriminate|].
  intros E. injection E as <-. cbn [wedges]. rewrite map_map. cbn [label].
  split.
  - apply groupby_category_sum_sorted.
  - intros c. apply groupby_category_sum_keys.
Qed.

Lemma create_pie_chart_wedge_order_witness :
  exists fig,
    create_pie_chart (rows three_expenses) = Ok [plt_show fig]
    /\ map label (wedges fig) = ["Food"; "Transportation"]%string
    /\ StronglySorted (fun a b => (a ?= b)%string = Lt)
                      (map label (wedges fig)).
Proof.
  eexists. split; [reflexivity|]. split; [reflexivity|].
  exact (proj1 (create_pie_chart_wedge_order (rows three_expenses) _
                  eq_refl)).
Defined.









Lemma qc_add_neg (a b : Qc) : (a < 0 -> b < 0 -> a + b < 0)%Qc.
Proof.
  unfold Qclt. intros Ha Hb.
  change (this (a + b)%Qc) with (Qred (a + b)). rewrite Qred_correct.
  apply Qlt_le_weak in Hb.
  exact (Qplus_lt_le_compat a 0 b 0 Ha Hb).
Qed.

Lemma py_lt0_add (x y : pyfloat) :
  py_lt0 x = true -> py_lt0 y = true -> py_lt0 (py_add x y) = true.
Proof.
  destruct x as [a|[|]|], y as [b|[|]|]; simpl; try discriminate; auto.
  destruct (a ?= 0)%Qc eqn:Ea; try discriminate.
  destruct (b ?= 0)%Qc eqn:Eb; try discriminate. intros _ _.
  apply Qclt_alt in Ea, Eb.
  now rewrite (proj1 (Qclt_alt _ _) (qc_add_neg a b Ea Eb)).
Qed.

(** X12.  Records whose amounts are all below zero are refused by the
    chart: the call raises [ValueError] and nothing is shown. *)
Theorem create_pie_chart_negative_amounts (expenses : list row) :
  expenses <> [] ->
  forallb (fun r => py_lt0 (amount r)) expenses = true ->
  create_pie_chart expenses = Raise ValueError.
Proof.
  intros Hne Hneg. rewrite forallb_forall in Hneg.
  assert (Hall : Forall (fun s => py_lt0 s = true)
                        (map snd (groupby_category_sum expenses))).
  { apply groupby_category_sum_values; [apply py_lt0_add|].
    intros r Hr. specialize (Hneg r Hr). unfold skipna.
    destruct (amount r); try discriminate; exact Hneg. }
  pose proof (groupby_category_sum_nonempty _ Hne) as Hg.
  unfold create_pie_chart, pie. destruct expenses as [|r l]; [congruence|].
  destruct (groupby_category_sum (r :: l)) as [|[c s] g]; [congruence|].
  inversion Hall as [|? ? Hs _]; subst. cbn [map snd existsb].
  cbn [snd] in Hs. now rewrite Hs.
Qed.

Lemma create_pie_chart_negative_amounts_witness :
  refunds <> []
  /\ forallb (fun r => py_lt0 (amount r)) refunds = true
  /\ create_pie_chart refunds = Raise ValueError.
Proof.
  assert (H1 : refunds <> []) by discriminate.
  assert (H2 : forallb (fun r => py_lt0 (amount r)) refunds = true)
    by reflexivity.
  split; [exact H1 | split; [exact H2 |]].
  exact (create_pie_chart_negative_amounts refunds H1 H2).
Defined.

End ChartMore.

(** ** The controller: what reaches the store, and what the table shows *)

Section ControllerMore.
Import DataStorage ExpenseTrackerApp.

Variable float : string -> option pyfloat.
Variable tk_text : pyfloat -> string.

Lemma fields_stored_ok (l1 l2 : list row) :
  map fields l1 = map fields l2 ->
  forallb stored_ok l1 = forallb stored_ok l2.
Proof.
  revert l2. induction l1 as [|x l1 IH]; intros [|y l2]; simpl;
    try discriminate; auto.
  intros Hf. injection Hf as Ha Hc Hd Hf.
  unfold stored_ok at 1 3. rewrite Ha, Hc. f_equal. auto.
Qed.

Lemma delete_expense_stored_ok (k : Z) (db : table) :
  forallb stored_ok (rows db) = true ->
  forallb stored_ok (rows (DataStorage.delete_expense k db)) = true.
Proof.
  intros H. rewrite (fields_stored_ok _ _ (delete_expense_fields k db)).
  rewrite forallb_forall in *. intros r Hr.
  apply filter_In in Hr. apply H, Hr.
Qed.

Lemma add_expense_success (now : datetime) (a : app) :
  shown (ExpenseTrackerApp.add_expense float now a)
  = [showinfo "Success" "Expense added successfully!"] ->
  exists v,
    float (amount_entry a) = Some v
    /\ py_le0 v = false /\ is_nan v = false
    /\ not_str (category_combobox a) = false
    /\ last_rowid (storage a) < MAX_ROWID
    /\ ExpenseTrackerApp.add_expense float now a
       = returns
           (clear_inputs
              (load_expenses
                 (set_storage
                    (insert_row (storage a) v (category_combobox a)
                                (strftime now)) a)))
           [showinfo "Success" "Expense added successfully!"].
Proof.
  unfold ExpenseTrackerApp.add_expense, input_error,
    DataStorage.add_expense.
  destruct (not_str (amount_entry a)); [discriminate|].
  destruct (not_str (category_combobox a)) eqn:Ec; [discriminate|].
  cbn [orb].
  destruct (float (amount_entry a)) as [v|]; [|discriminate].
  destruct (py_le0 v) eqn:Ev; [discriminate|].
  destruct (Z.leb_spec MAX_ROWID (last_rowid (storage a)));
    [discriminate|].
  destruct (is_nan v) eqn:En; [discriminate|].
  intros _. exists v. repeat split; auto.
Qed.

Lemma add_expense_cases (now : datetime) (a : app) :
  let r := ExpenseTrackerApp.add_expense float now a in
  (after r = a /\ uncaught r = None
   /\ exists message, shown r = [showerror "Input Error" message])
  \/ (after r = a /\ shown r = [] /\ uncaught r <> None)
  \/ (uncaught r = None
      /\ shown r = [showinfo "Success" "Expense added successfully!"]
      /\ exists v,
          float (amount_entry a) = Some v
          /\ DataStorage.add_expense v (category_combobox a)
               (strftime now) (storage a) = Ok (storage (after r))).
Proof.
  unfold ExpenseTrackerApp.add_expense, input_error.
  destruct (not_str (amount_entry a) || not_str (category_combobox a));
    [left; simpl; eauto|].
  destruct (float (amount_entry a)) as [v|]; [|left; simpl; eauto].
  destruct (py_le0 v); [left; simpl; eauto|].
  destruct (DataStorage.add_expense v (category_combobox a) (strftime now)
                                    (storage a)) as [db|e] eqn:E.
  - right. right. simpl. repeat split. eauto.
  - right. left. simpl. repeat split. discriminate.
Qed.

(** X13.  A submit has one of three outcomes: an input error dialog with
    the whole state left as it was; an exception raised by the store,
    with no dialog and the state left as it was; or the success dialog,
    with the store holding what the insert returned. *)
Theorem add_expense_outcomes (now : datetime) (a : app) :
  let r := ExpenseTrackerApp.add_expense float now a in
  (after r = a /\ uncaught r = None
   /\ exists message, shown r = [showerror "Input Error" message])
  \/ (after r = a /\ shown r = [] /\ uncaught r <> None)
  \/ (uncaught r = None
      /\ shown r = [showinfo "Success" "Expense added successfully!"]
      /\ exists v,
          float (amount_entry a) = Some v
          /\ DataStorage.add_expense v (category_combobox a)
               (strftime now) (storage a) = Ok (storage (after r))).
Proof. exact (add_expense_cases now a). Qed.

(** X14.  After a successful submit the table shows the new record, with
    the amount read from the form, the category chosen, the stamp of the
    moment and the id [n + 1]; the rows shown before are shown still. *)
Theorem add_expense_shows_new_record (now : datetime) (a : app) :
  app_ok a ->
  shown (ExpenseTrackerApp.add_expense float now a)
  = [showinfo "Success" "Expense added successfully!"] ->
  let a' := after (ExpenseTrackerApp.add_expense float now a) in
  exists v,
    float (amount_entry a) = Some v
    /\ py_le0 v = false
    /\ In {| id := Z.of_nat (List.length (rows (storage a))) + 1;
             amount := v;
             category := category_combobox a;
             date := strftime now |} (expense_table a')
    /\ (forall x, In x (expense_table a) -> In x (expense_table a')).
Proof.
  intros (Hdb & Htab & _) Hs a'.
  destruct (add_expense_success now a Hs)
    as (v & Hf & Hle & Hn & _ & Hid & E).
  exists v. split; [exact Hf | split; [exact Hle |]].
  unfold a'. rewrite E.
  cbn [after returns clear_inputs load_expenses set_storage
       expense_table storage].
  pose proof (db_ok_last_rowid _ Hdb) as Hl.
  split.
  - apply get_all_expenses_In. unfold insert_row. cbn [rows].
    rewrite Hl. apply in_or_app. right. now left.
  - intros x Hx. rewrite Htab in Hx. apply get_all_expenses_In in Hx.
    apply get_all_expenses_In. unfold insert_row. cbn [rows].
    apply in_or_app. now left.
Qed.

Lemma reachable_stored_ok (a : app) :
  reachable float tk_text a ->
  forallb stored_ok (rows (storage a)) = true.
Proof.
  induction 1 as [|text a _ IH|text a _ IH|sel a _ IH|now a _ IH
                  |a _ IH|a _ IH|a _ IH|a _ IH].
  - reflexivity.
  - exact IH.
  - exact IH.
  - unfold on_row_select. destruct sel as [|i _]; [exact IH|].
    destruct (nth_error (expense_table a) i); exact IH.
  - destruct (add_expense_cases now a) as [(E & _)|[(E & _)|(_ & Hs & _)]];
      [now rewrite E | now rewrite E |].
    destruct (add_expense_success now a Hs)
      as (v & _ & Hle & Hn & Hc & _ & E).
    rewrite E.
    cbn [after returns clear_inputs load_expenses set_storage storage].
    unfold insert_row. cbn [rows]. rewrite forallb_app, IH.
    cbn [forallb]. unfold stored_ok. cbn [amount category].
    now rewrite Hle, Hn, Hc.
  - unfold ExpenseTrackerApp.delete_expense.
    destruct (selected_expense_id a) as [k|]; [|exact IH].
    destruct (k =? 0); [exact IH|].
    cbn [after returns clear_inputs load_expenses set_storage storage].
    now apply delete_expense_stored_ok.
  - now rewrite show_pie_chart_after.
  - exact IH.
  - exact IH.
Qed.

(** X15.  Every record the program has stored holds an amount that is a
    number and not [<= 0], and a category that is not empty. *)
Theorem reachable_stored_rows_valid (a : app) :
  reachable float tk_text a ->
  forallb stored_ok (rows (storage a)) = true.
Proof. exact (reachable_stored_ok a). Qed.



(** X17.  At every moment the table shows all stored records and only
    them, the stored ids are [1..n], and a selection, when there is one,
    is one of these ids. *)
Theorem reachable_table_and_selection (a : app) :
  reachable float tk_text a ->
  let n := List.length (rows (storage a)) in
  Permutation (rows (storage a)) (expense_table a)
  /\ ids (rows (storage a)) = map Z.of_nat (List.seq 1 n)
  /\ (forall k, selected_expense_id a = Some k -> 1 <= k <= Z.of_nat n).
Proof.
  intros Hr n. destruct (reachable_app_ok float tk_text a Hr)
    as (Hdb & Htab & Hsel).
  destruct (db_ok_numbered _ Hdb) as [Hd _].
  split; [|split].
  - rewrite Htab. apply order_by_date_desc_perm.
  - rewrite (dense_from_seq 1 _ Hd). unfold ids, n. now rewrite length_map.
  - intros k Hk. apply (db_ok_ids_range _ _ Hdb).
    eapply Permutation_in; [symmetry; apply get_all_expenses_ids|].
    rewrite <- Htab. now apply Hsel.
Qed.

(** X18.  Closing the program and starting it again on the database it
    left shows the same table, with nothing selected and empty inputs. *)
Theorem restart_shows_same_table (a : app) :
  reachable float tk_text a ->
  let a' := __init__ (Some (storage a)) in
  expense_table a' = expense_table a
  /\ storage a' = storage a
  /\ selected_expense_id a' = None
  /\ amount_entry a' = ""%string /\ category_combobox a' = ""%string.
Proof.
  intros Hr a'. destruct (reachable_app_ok float tk_text a Hr)
    as (_ & Htab & _).
  unfold a'. simpl. rewrite Htab. repeat split.
Qed.

Lemma without_nth (l : list row) (i : nat) (r : row) :
  NoDup (ids l) -> nth_error l i = Some r ->
  without (id r) l = firstn i l ++ skipn (S i) l.
Proof.
  revert i. induction l as [|x l IH]; intros [|i] Hnd Hn; simpl in Hn;
    try discriminate.
  - injection Hn as ->. inversion Hnd as [|? ? Hx _]; subst.
    cbn [without filter firstn skipn List.app]. rewrite Z.eqb_refl. cbn [negb].
    now apply without_absent.
  - inversion Hnd as [|? ? Hx Hnd']; subst.
    cbn [without filter firstn skipn List.app].
    destruct (Z.eqb_spec (id x) (id r)) as [E|_]; cbn [negb].
    + exfalso. apply Hx. rewrite E. apply in_map.
      eapply nth_error_In. eassumption.
    + f_equal. now apply IH.
Qed.

(** X19.  Selecting the row at some position of the table and pressing
    delete takes exactly that row out of the table: what is shown
    afterwards is the rows before it followed by the rows after it,
    fields and order kept. *)
Theorem delete_selected_row (a : app) (i : nat) (r : row) :
  app_ok a ->
  nth_error (expense_table a) i = Some r ->
  let a' := after (ExpenseTrackerApp.delete_expense
                     (on_row_select tk_text [i] a)) in
  map fields (expense_table a')
  = map fields (firstn i (expense_table a) ++ skipn (S i) (expense_table a))
  /\ selected_expense_id a' = None.
Proof.
  intros (Hdb & Htab & _) Hn a'.
  destruct (db_ok_numbered _ Hdb) as [Hd _].
  assert (Hnd : NoDup (ids (expense_table a))).
  { rewrite Htab. eapply Permutation_NoDup;
      [apply get_all_expenses_ids | now apply dense_from_NoDup with 1]. }
  assert (Hin : In (id r) (ids (rows (storage a)))).
  { eapply Permutation_in; [symmetry; apply get_all_expenses_ids|].
    rewrite <- Htab. apply in_map. eapply nth_error_In. eassumption. }
  pose proof (db_ok_ids_range _ _ Hdb Hin) as Hk.
  unfold a', on_row_select, ExpenseTrackerApp.delete_expense.
  rewrite Hn. cbn [selected_expense_id].
  destruct (Z.eqb_spec (id r) 0) as [E|_]; [lia|].
  cbn [after returns clear_inputs load_expenses set_storage storage
       expense_table selected_expense_id].
  split; [|reflexivity].
  rewrite <- (without_nth _ _ _ Hnd Hn), Htab.
  unfold get_all_expenses, without.
  rewrite filter_order_by_date_desc.
  apply order_by_date_desc_fields, delete_expense_fields.
Qed.

End ControllerMore.

Section ControllerWitnesses.
Import DataStorage ExpenseTrackerApp.

Lemma one_added_reachable : reachable float_plain format_1f one_added.
Proof.
  unfold one_added.
  apply r_add, r_type_category, r_type_amount, r_start.
Defined.

Lemma one_selected_reachable : reachable float_plain format_1f one_selected.
Proof. unfold one_selected. apply r_select, one_added_reachable. Defined.

Lemma add_expense_shows_new_record_witness :
  app_ok form_filled
  /\ exists v,
      float_plain (amount_entry form_filled) = Some v
      /\ In {| id := 4; amount := v; category := "Other";
               date := strftime mar09 |}
            (expense_table
               (after (ExpenseTrackerApp.add_expense
                         float_plain mar09 form_filled))).
Proof.
  assert (Hok : app_ok form_filled).
  { split; [reflexivity|]. split; [reflexivity|].
    intros k Hk. injection Hk as <-. simpl. auto. }
  split; [exact Hok|].
  destruct (add_expense_shows_new_record float_plain mar09 form_filled
              Hok eq_refl) as (v & Hf & _ & Hin & _).
  exists v. split; [exact Hf | exact Hin].
Defined.

Lemma reachable_stored_rows_valid_witness :
  reachable float_plain format_1f one_added
  /\ List.length (rows (storage one_added)) = 1%nat
  /\ forallb stored_ok (rows (storage one_added)) = true.
Proof.
  split; [exact one_added_reachable | split; [reflexivity|]].
  exact (reachable_stored_rows_valid float_plain format_1f one_added
           one_added_reachable).
Defined.


Lemma reachable_table_and_selection_witness :
  reachable float_plain format_1f one_selected
  /\ selected_expense_id one_selected = Some 1
  /\ Permutation (rows (storage one_selected)) (expense_table one_selected).
Proof.
  split; [exact one_selected_reachable | split; [reflexivity|]].
  exact (proj1 (reachable_table_and_selection float_plain format_1f
                  one_selected one_selected_reachable)).
Defined.

Lemma restart_shows_same_table_witness :
  reachable float_plain format_1f one_selected
  /\ expense_table (__init__ (Some (storage one_selected)))
     = expense_table one_selected.
Proof.
  split; [exact one_selected_reachable|].
  exact (proj1 (restart_shows_same_table float_plain format_1f
                  one_selected one_selected_reachable)).
Defined.

Lemma delete_selected_row_witness :
  app_ok (__init__ (Some three_expenses))
  /\ map id (expense_table (__init__ (Some three_expenses))) = [1; 3; 2]
  /\ map fields
         (expense_table
            (after (ExpenseTrackerApp.delete_expense
                      (on_row_select format_1f [1%nat]
                                     (__init__ (Some three_expenses))))))
     = map fields [expense 1 10 "Food" jan15; expense 2 20 "Food" feb01].
Proof.
  assert (Hok : app_ok (__init__ (Some three_expenses))).
  { split; [reflexivity|]. split; [reflexivity|]. discriminate. }
  split; [exact Hok | split; [reflexivity|]].
  exact (proj1 (delete_selected_row format_1f
                  (__init__ (Some three_expenses)) 1
                  (expense 3 30 "Transportation" mar09) Hok eq_refl)).
Defined.

End ControllerWitnesses.
